(** * filesystem_mcp: a confined file-system tool server

    Shallow embedding of [server.py] and proofs about its path confinement,
    its file operations and its search tools.

    Conventions of the embedding.
    - A Python [str] is a Rocq [string] holding the UTF-8 encoding of the
      text.  Prefix tests, substring tests, counting of a one-byte character
      and code-point ordering all coincide with their byte-level versions on
      UTF-8, and [len(s.encode())] is [String.length].
    - A [pathlib] path is its list of segments.  The paths [_safe_path]
      returns are absolute and hold no [.] or [..] segment; the paths [glob]
      builds may hold [..], as the pattern does.
    - The file system is a tree of plain files and directories, without
      symbolic links or special files; a directory keeps its entries in the
      order in which the host enumerates them.  Path strings hold no NUL.
    - A tool that changes the file system takes the tree and the time of the
      call and returns its reply and the new tree.
    - A raised exception is a value of [result]; every tool catches it and
      turns it into its reply string, as the [try/except] of the source does.
    - A reply that the source serialises with [json.dumps] is the dictionary
      before serialisation.
    - The requests are the ones the input models let through: strings
      already stripped, fields within their bounds where a statement says so.
    - Functions of the Python library whose tables are outside the program
      ([str.lower], [str.rstrip], [repr], [strftime], [fnmatch]) are fields
      of the class [Platform]; [pathlib]'s [glob] is the one of CPython 3.11. *)

From Stdlib Require Import List String Ascii Bool Arith ZArith Lia.
From Stdlib Require Import Permutation Sorted DecimalString.
Import ListNotations.
Open Scope string_scope.

(** ** Python strings *)

Module PyStr.

Definition LF : ascii := "010"%char.
Definition CR : ascii := "013"%char.

(** [s.startswith(p)] *)
Definition startswith (s p : string) : bool := String.prefix p s.

(** [needle in haystack] *)
Fixpoint contains (needle haystack : string) : bool :=
  String.prefix needle haystack ||
  match haystack with
  | EmptyString => false
  | String _ h => contains needle h
  end.

(** [s.count(c)] for a one-character [c] *)
Fixpoint count (c : ascii) (s : string) : nat :=
  match s with
  | EmptyString => 0
  | String a s' => (if Ascii.eqb a c then 1 else 0) + count c s'
  end.

(** [sep.join(l)] *)
Definition join (sep : string) (l : list string) : string := String.concat sep l.

(** The one-byte line boundaries of [str.splitlines] other than LF and CR:
    VT, FF, FS, GS and RS. *)
Definition is_ctl_break (c : ascii) : bool :=
  match nat_of_ascii c with
  | 11 | 12 | 28 | 29 | 30 => true
  | _ => false
  end.

(** Puts [c] in front of the first line of [ls]. *)
Definition cons_line (c : ascii) (ls : list string) : list string :=
  match ls with
  | [] => [String c EmptyString]
  | l :: ls' => String c l :: ls'
  end.

(** The two-byte boundary NEL (U+0085, bytes C2 85) and the three-byte
    boundaries LS and PS (U+2028 and U+2029, bytes E2 80 A8 and E2 80 A9). *)
Definition is_NEL (c c1 : ascii) : bool :=
  Nat.eqb (nat_of_ascii c) 194 && Nat.eqb (nat_of_ascii c1) 133.

Definition is_LS_PS (c c1 c2 : ascii) : bool :=
  Nat.eqb (nat_of_ascii c) 226 && Nat.eqb (nat_of_ascii c1) 128 &&
  (Nat.eqb (nat_of_ascii c2) 168 || Nat.eqb (nat_of_ascii c2) 169).

(** [s.splitlines()]: lines without their boundaries.  The boundaries are
    LF, CR, CR LF, VT, FF, FS, GS, RS, NEL, LS and PS; a boundary at the very
    end opens no further line. *)
Fixpoint splitlines (s : string) : list string :=
  match s with
  | EmptyString => []
  | String c rest =>
    if Ascii.eqb c LF then EmptyString :: splitlines rest
    else if Ascii.eqb c CR then
      match rest with
      | String c1 rest1 =>
        if Ascii.eqb c1 LF then EmptyString :: splitlines rest1
        else EmptyString :: splitlines rest
      | EmptyString => [EmptyString]
      end
    else if is_ctl_break c then EmptyString :: splitlines rest
    else
      match rest with
      | String c1 rest1 =>
        if is_NEL c c1 then EmptyString :: splitlines rest1
        else
          match rest1 with
          | String c2 rest2 =>
            if is_LS_PS c c1 c2 then EmptyString :: splitlines rest2
            else cons_line c (splitlines rest)
          | EmptyString => cons_line c (splitlines rest)
          end
      | EmptyString => [String c EmptyString]
      end
  end.

(** True when [s] holds a line boundary other than LF. *)
Fixpoint other_break (s : string) : bool :=
  match s with
  | EmptyString => false
  | String c rest =>
    Ascii.eqb c CR || is_ctl_break c ||
    match rest with
    | String c1 rest1 =>
      is_NEL c c1 ||
      match rest1 with
      | String c2 _ => is_LS_PS c c1 c2
      | EmptyString => false
      end
    | EmptyString => false
    end
    || other_break rest
  end.

(** [s.endswith(t)] *)
Fixpoint ends_with (s t : string) : bool :=
  String.eqb s t ||
  match s with
  | EmptyString => false
  | String _ rest => ends_with rest t
  end.

(** [str(n)] for a natural number. *)
Definition of_nat (n : nat) : string := NilEmpty.string_of_uint (Nat.to_uint n).

(** Inserts a comma before every group of three digits, [ds] being the
    digits from the least significant one. *)
Fixpoint group3 (ds : list ascii) : list ascii :=
  match ds with
  | d0 :: d1 :: d2 :: (_ :: _) as more => d0 :: d1 :: d2 :: ","%char :: group3 more
  | _ => ds
  end.

(** [f"{n:,}"] *)
Definition of_nat_commas (n : nat) : string :=
  string_of_list_ascii (rev (group3 (rev (list_ascii_of_string (of_nat n))))).

End PyStr.

(** ** Exceptions *)

(** The subclasses of [OSError] that the file-system calls of the program
    raise. *)
Inductive os_error : Type :=
| FileNotFoundError
| PermissionError
| IsADirectoryError
| NotADirectoryError
| FileExistsError.

(** A raised exception.  An [OSError] carries the file name it was raised
    for ([e.filename]); the others carry their message. *)
Inductive exception : Type :=
| OSError (cls : os_error) (filename : string)
| ValueError (msg : string)
| NotImplementedError (msg : string)
| IndexError (msg : string).

Inductive result (A : Type) : Type :=
| Ok (a : A)
| Raise (e : exception).

Arguments Ok {A} a.
Arguments Raise {A} e.

Definition bind {A B : Type} (r : result A) (k : A -> result B) : result B :=
  match r with
  | Ok a => k a
  | Raise e => Raise e
  end.

Notation "x <- r ;; k" := (bind r (fun x => k))
  (at level 61, r at next level, right associativity).

Definition os_error_name (c : os_error) : string :=
  match c with
  | FileNotFoundError => "FileNotFoundError"
  | PermissionError => "PermissionError"
  | IsADirectoryError => "IsADirectoryError"
  | NotADirectoryError => "NotADirectoryError"
  | FileExistsError => "FileExistsError"
  end.

Definition os_errno (c : os_error) : nat :=
  match c with
  | FileNotFoundError => 2
  | PermissionError => 13
  | IsADirectoryError => 21
  | NotADirectoryError => 20
  | FileExistsError => 17
  end.

Definition os_strerror (c : os_error) : string :=
  match c with
  | FileNotFoundError => "No such file or directory"
  | PermissionError => "Permission denied"
  | IsADirectoryError => "Is a directory"
  | NotADirectoryError => "Not a directory"
  | FileExistsError => "File exists"
  end.

(** [type(e).__name__] *)
Definition type_name (e : exception) : string :=
  match e with
  | OSError c _ => os_error_name c
  | ValueError _ => "ValueError"
  | NotImplementedError _ => "NotImplementedError"
  | IndexError _ => "IndexError"
  end.

(** ** Paths *)

Definition path : Type := list string.

Module PyPath.

(** [s.split("/")], the piece being built kept in [cur]. *)
Fixpoint split_slash_from (cur : string) (s : string) : list string :=
  match s with
  | EmptyString => [cur]
  | String c rest =>
    if Ascii.eqb c "/"%char then cur :: split_slash_from EmptyString rest
    else split_slash_from (cur ++ String c EmptyString) rest
  end.

Definition split_slash (s : string) : list string := split_slash_from EmptyString s.

(** The segments [pathlib] keeps of a path string: empty segments and [.]
    are dropped, [..] is kept. *)
Definition parse_parts (raw : string) : path :=
  filter (fun s => negb (String.eqb s "" || String.eqb s ".")) (split_slash raw).

Definition is_absolute (raw : string) : bool := PyStr.startswith raw "/".

(** [base / raw] for an absolute [base]: an absolute [raw] replaces [base]. *)
Definition joinpath (base : path) (raw : string) : path :=
  if is_absolute raw then parse_parts raw else (base ++ parse_parts raw)%list.

(** [Path.resolve()] on an absolute path of a file system without symbolic
    links: every [..] drops the segment before it and stays at the root when
    there is none.  [acc] holds the segments done, innermost first. *)
Fixpoint resolve_from (acc : list string) (segs : path) : path :=
  match segs with
  | [] => rev acc
  | s :: segs' =>
    if String.eqb s ".." then resolve_from (tl acc) segs'
    else resolve_from (s :: acc) segs'
  end.

Definition resolve (p : path) : path := resolve_from [] p.

(** [str(p)] for an absolute path. *)
Definition str (p : path) : string := "/" ++ PyStr.join "/" p.

(** [p.parent] and [p.name]; the root is its own parent and has no name. *)
Definition parent (p : path) : path := removelast p.
Definition name (p : path) : string := last p EmptyString.

(** [p.suffix]: the name from its last dot on, when that dot is neither the
    first nor the last character of the name. *)
Fixpoint last_dot_from (i : nat) (s : string) : option nat :=
  match s with
  | EmptyString => None
  | String c rest =>
    match last_dot_from (S i) rest with
    | Some j => Some j
    | None => if Ascii.eqb c "."%char then Some i else None
    end
  end.

Definition suffix (p : path) : string :=
  let n := name p in
  match last_dot_from 0 n with
  | Some i =>
    if Nat.ltb 0 i && Nat.ltb i (String.length n - 1)
    then String.substring i (String.length n - i) n
    else EmptyString
  | None => EmptyString
  end.

(** [p.relative_to(base)] as a list of segments, when [base] is a prefix of
    [p] segment by segment. *)
Fixpoint strip_prefix (base p : path) : option path :=
  match base, p with
  | [], _ => Some p
  | b :: base', s :: p' => if String.eqb b s then strip_prefix base' p' else None
  | _ :: _, [] => None
  end.

(** [str] of a relative path. *)
Definition str_relative (p : path) : string :=
  match p with
  | [] => "."
  | _ => PyStr.join "/" p
  end.

(** [str(Path(raw))]: the root is kept, doubled when [raw] starts with
    exactly two slashes. *)
Definition str_of_raw (raw : string) : string :=
  let root :=
    if PyStr.startswith raw "//" && negb (PyStr.startswith raw "///") then "//"
    else if PyStr.startswith raw "/" then "/"
    else "" in
  match root, parse_parts raw with
  | EmptyString, [] => "."
  | _, parts => root ++ PyStr.join "/" parts
  end.

(** Comparison of two paths as [sorted] makes it: segment by segment, the
    shorter path first when it is a prefix of the other. *)
Fixpoint leb (p q : path) : bool :=
  match p, q with
  | [], _ => true
  | _ :: _, [] => false
  | a :: p', b :: q' =>
    match String.compare a b with
    | Lt => true
    | Gt => false
    | Eq => leb p' q'
    end
  end.

End PyPath.

(** ** The platform *)

(** What the program takes from the Python library and the host and that no
    property below depends on: Unicode lower-casing, stripping of trailing
    white space, [repr] of a string, the local-time rendering of a time
    stamp with ["%Y-%m-%d %H:%M:%S"], matching of one name against one
    shell pattern ([fnmatch]), and the size the host reports for a fresh
    directory. *)
Class Platform : Type := {
  str_lower : string -> string;
  str_rstrip : string -> string;
  py_repr : string -> string;
  format_mtime : Z -> string;
  fnmatch : string -> string -> bool;
  new_dir_size : nat
}.

(** ** The file system *)

Record stat_result : Type := mk_stat { st_size : nat; st_mtime : Z }.

(** A plain file: its bytes decoded as UTF-8 with replacement, what [stat]
    reports for it, and whether the process may open it for reading. *)
Record file : Type := mk_file {
  f_text : string;
  f_stat : stat_result;
  f_readable : bool
}.

#[warnings="-register-all"] Inductive node : Type :=
| File (f : file)
| Dir (st : stat_result) (entries : list (string * node)).

Inductive errno : Type := ENOENT | ENOTDIR.

Definition errno_class (e : errno) : os_error :=
  match e with
  | ENOENT => FileNotFoundError
  | ENOTDIR => NotADirectoryError
  end.

Module FS.

Fixpoint find_entry (name : string) (es : list (string * node)) : option node :=
  match es with
  | [] => None
  | (k, n) :: es' => if String.eqb k name then Some n else find_entry name es'
  end.

(** Path walk of the kernel from [cur], whose ancestors are [anc] (nearest
    first): [..] goes up and stays at the root. *)
Fixpoint walk (anc : list node) (cur : node) (p : path) : errno + node :=
  match p with
  | [] => inr cur
  | s :: p' =>
    match cur with
    | File _ => inl ENOTDIR
    | Dir _ es =>
      if String.eqb s ".." then
        match anc with
        | [] => walk [] cur p'
        | a :: anc' => walk anc' a p'
        end
      else
        match find_entry s es with
        | Some n => walk (cur :: anc) n p'
        | None => inl ENOENT
        end
    end
  end.

Definition lookup (fs : node) (p : path) : errno + node := walk [] fs p.

(** [p.exists()], [p.is_dir()], [p.is_file()] *)
Definition exists_ (fs : node) (p : path) : bool :=
  match lookup fs p with inr _ => true | inl _ => false end.

Definition is_dir (fs : node) (p : path) : bool :=
  match lookup fs p with inr (Dir _ _) => true | _ => false end.

Definition is_file (fs : node) (p : path) : bool :=
  match lookup fs p with inr (File _) => true | _ => false end.

Definition node_stat (n : node) : stat_result :=
  match n with
  | File f => f_stat f
  | Dir st _ => st
  end.

(** [p.stat()] *)
Definition stat (fs : node) (p : path) : result stat_result :=
  match lookup fs p with
  | inr n => Ok (node_stat n)
  | inl e => Raise (OSError (errno_class e) (PyPath.str p))
  end.

(** The names [p.iterdir()] yields, in the order of the host. *)
Definition listdir (fs : node) (p : path) : result (list string) :=
  match lookup fs p with
  | inr (Dir _ es) => Ok (map fst es)
  | inr (File _) => Raise (OSError NotADirectoryError (PyPath.str p))
  | inl e => Raise (OSError (errno_class e) (PyPath.str p))
  end.

(** Reading in text mode turns CR LF and a lone CR into LF. *)
Fixpoint universal_newlines (s : string) : string :=
  match s with
  | EmptyString => EmptyString
  | String c rest =>
    if Ascii.eqb c PyStr.CR then
      match rest with
      | String c1 rest1 =>
        if Ascii.eqb c1 PyStr.LF then String PyStr.LF (universal_newlines rest1)
        else String PyStr.LF (universal_newlines rest)
      | EmptyString => String PyStr.LF EmptyString
      end
    else String c (universal_newlines rest)
  end.

(** [p.read_text(encoding="utf-8", errors="replace")] *)
Definition read_text (fs : node) (p : path) : result string :=
  match lookup fs p with
  | inr (File f) =>
    if f_readable f then Ok (universal_newlines (f_text f))
    else Raise (OSError PermissionError (PyPath.str p))
  | inr (Dir _ _) => Raise (OSError IsADirectoryError (PyPath.str p))
  | inl e => Raise (OSError (errno_class e) (PyPath.str p))
  end.

(** *** Mutation *)

Definition touch (now : Z) (st : stat_result) : stat_result :=
  mk_stat (st_size st) now.

Fixpoint map_entry (name : string) (g : node -> node) (es : list (string * node))
  : list (string * node) :=
  match es with
  | [] => []
  | (k, n) :: es' =>
    if String.eqb k name then (k, g n) :: es' else (k, n) :: map_entry name g es'
  end.

(** The tree with [g] applied to the node at [p], a path without [..]. *)
Fixpoint update_at (p : path) (g : node -> node) (n : node) : node :=
  match p with
  | [] => g n
  | s :: p' =>
    match n with
    | Dir st es => Dir st (map_entry s (update_at p' g) es)
    | File _ => n
    end
  end.

(** A directory gains an entry, at the end of its enumeration, and its
    modification time moves. *)
Definition add_entry (now : Z) (name : string) (child : node) (n : node) : node :=
  match n with
  | Dir st es => Dir (touch now st) (es ++ [(name, child)])
  | File _ => n
  end.

Fixpoint drop_entry (name : string) (es : list (string * node)) : list (string * node) :=
  match es with
  | [] => []
  | (k, n) :: es' => if String.eqb k name then es' else (k, n) :: drop_entry name es'
  end.

Definition remove_entry (now : Z) (name : string) (n : node) : node :=
  match n with
  | Dir st es => Dir (touch now st) (drop_entry name es)
  | File _ => n
  end.

Section Mutation.
Context {P : Platform}.
Variable now : Z.

(** [os.mkdir(p)] for a resolved path [p]. *)
Definition os_mkdir (fs : node) (p : path) : result node :=
  match lookup fs p with
  | inr _ => Raise (OSError FileExistsError (PyPath.str p))
  | inl _ =>
    match lookup fs (PyPath.parent p) with
    | inr (Dir _ _) =>
      Ok (update_at (PyPath.parent p)
            (add_entry now (PyPath.name p) (Dir (mk_stat new_dir_size now) [])) fs)
    | inr (File _) => Raise (OSError NotADirectoryError (PyPath.str p))
    | inl e => Raise (OSError (errno_class e) (PyPath.str p))
    end
  end.

(** [p.mkdir(parents=False, exist_ok=True)]: [FileNotFoundError] is
    raised again, any other [OSError] is dropped when [p] is a directory. *)
Definition mkdir_exist_ok (fs : node) (p : path) : result node :=
  match os_mkdir fs p with
  | Ok fs' => Ok fs'
  | Raise (OSError FileNotFoundError f) => Raise (OSError FileNotFoundError f)
  | Raise e => if is_dir fs p then Ok fs else Raise e
  end.

(** [p.mkdir(parents=True, exist_ok=True)], [rp] being [p] with its
    segments reversed: on [FileNotFoundError] the parent is made first, then
    [p] itself without [parents]; the root is its own parent. *)
Fixpoint mkdir_parents (fs : node) (rp : list string) : result node :=
  match os_mkdir fs (rev rp) with
  | Ok fs' => Ok fs'
  | Raise (OSError FileNotFoundError f) =>
    match rp with
    | [] => Raise (OSError FileNotFoundError f)
    | _ :: rp' =>
      fs1 <- mkdir_parents fs rp' ;;
      mkdir_exist_ok fs1 (rev rp)
    end
  | Raise e => if is_dir fs (rev rp) then Ok fs else Raise e
  end.

Definition mkdir (fs : node) (p : path) : result node := mkdir_parents fs (rev p).

(** [p.write_text(content, encoding="utf-8")] for a resolved path [p]:
    the file is created or truncated, then holds [content]. *)
Definition write_text (fs : node) (p : path) (content : string) : result node :=
  let new_file := File (mk_file content (mk_stat (String.length content) now) true) in
  match lookup fs p with
  | inr (Dir _ _) => Raise (OSError IsADirectoryError (PyPath.str p))
  | inr (File f) =>
    Ok (update_at p
          (fun _ => File (mk_file content (mk_stat (String.length content) now)
                            (f_readable f))) fs)
  | inl _ =>
    match lookup fs (PyPath.parent p) with
    | inr (Dir _ _) =>
      Ok (update_at (PyPath.parent p) (add_entry now (PyPath.name p) new_file) fs)
    | inr (File _) => Raise (OSError NotADirectoryError (PyPath.str p))
    | inl e => Raise (OSError (errno_class e) (PyPath.str p))
    end
  end.

(** [p.unlink()] for a resolved path [p]. *)
Definition unlink (fs : node) (p : path) : result node :=
  match lookup fs p with
  | inr (File _) =>
    Ok (update_at (PyPath.parent p) (remove_entry now (PyPath.name p)) fs)
  | inr (Dir _ _) => Raise (OSError IsADirectoryError (PyPath.str p))
  | inl e => Raise (OSError (errno_class e) (PyPath.str p))
  end.

End Mutation.

End FS.

(** ** Sorting *)

(** [sorted] is stable: an element goes in front of the first element that
    is not below it, so equal elements keep the order they came in. *)
Section Sorting.
Context {A : Type}.
Variable le : A -> A -> bool.

Fixpoint insert_sorted (x : A) (l : list A) : list A :=
  match l with
  | [] => [x]
  | y :: l' => if le x y then x :: l else y :: insert_sorted x l'
  end.

Fixpoint sorted (l : list A) : list A :=
  match l with
  | [] => []
  | x :: l' => insert_sorted x (sorted l')
  end.

End Sorting.

(** ** Globbing ([pathlib], CPython 3.11) *)

Module Glob.

Inductive selector : Type :=
| Terminating
| Precise (name : string) (dironly : bool) (successor : selector)
| Wildcard (pat : string) (dironly : bool) (successor : selector)
| RecursiveWildcard (successor : selector).

Definition is_wildcard_pattern (pat : string) : bool :=
  PyStr.contains "*" pat || PyStr.contains "?" pat || PyStr.contains "[" pat.

Definition nonempty {A : Type} (l : list A) : bool :=
  match l with [] => false | _ :: _ => true end.

(** [_make_selector(pattern_parts)] *)
Fixpoint make_selector (parts : list string) : result selector :=
  match parts with
  | [] => Raise (IndexError "tuple index out of range")
  | pat :: child_parts =>
    let successor :=
      match child_parts with
      | [] => Ok Terminating
      | _ :: _ => make_selector child_parts
      end in
    if String.eqb pat "" then Ok Terminating
    else if String.eqb pat "**" then
      succ <- successor ;; Ok (RecursiveWildcard succ)
    else if PyStr.contains "**" pat then
      Raise (ValueError "Invalid pattern: '**' can only be an entire path component")
    else if is_wildcard_pattern pat then
      succ <- successor ;; Ok (Wildcard pat (nonempty child_parts) succ)
    else
      succ <- successor ;; Ok (Precise pat (nonempty child_parts) succ)
  end.

(** The directories from [n], found at [p], downwards, each before the ones
    below it. *)
Fixpoint dirs_below (p : path) (n : node) : list path :=
  match n with
  | File _ => [p]
  | Dir _ es =>
    p :: flat_map (fun e =>
                     match snd e with
                     | Dir _ _ => dirs_below (p ++ [fst e])%list (snd e)
                     | File _ => []
                     end) es
  end.

Definition iterate_directories (fs : node) (p : path) : list path :=
  match FS.lookup fs p with
  | inr n => dirs_below p n
  | inl _ => [p]
  end.

Definition scandir (fs : node) (p : path) : list (string * node) :=
  match FS.lookup fs p with
  | inr (Dir _ es) => es
  | _ => []
  end.

Definition path_eqb (p q : path) : bool :=
  if list_eq_dec String.string_dec p q then true else false.

(** Keeps the first occurrence of every path, as the [yielded] set does. *)
Fixpoint dedup_from (seen : list path) (l : list path) : list path :=
  match l with
  | [] => []
  | p :: l' =>
    if existsb (path_eqb p) seen then dedup_from seen l'
    else p :: dedup_from (p :: seen) l'
  end.

Section Select.
Context {P : Platform}.
Variable fs : node.

(** [selector._select_from(parent_path, ...)] *)
Fixpoint select (sel : selector) (parent_path : path) : list path :=
  match sel with
  | Terminating => [parent_path]
  | Precise name dironly succ =>
    let p := (parent_path ++ [name])%list in
    if (if dironly then FS.is_dir fs p else FS.exists_ fs p)
    then select succ p else []
  | Wildcard pat dironly succ =>
    flat_map (fun e =>
                if dironly && negb (match snd e with Dir _ _ => true | File _ => false end)
                then []
                else if fnmatch (fst e) pat
                     then select succ (parent_path ++ [fst e])%list
                     else [])
             (scandir fs parent_path)
  | RecursiveWildcard succ =>
    dedup_from [] (flat_map (select succ) (iterate_directories fs parent_path))
  end.

(** [selector.select_from(parent_path)] *)
Definition select_from (sel : selector) (parent_path : path) : list path :=
  if FS.is_dir fs parent_path then select sel parent_path else [].

Definition pattern_parts (pattern : string) : list string :=
  (PyPath.parse_parts pattern ++
   (if PyStr.ends_with pattern "/" then [EmptyString] else []))%list.

(** [root.glob(pattern)] *)
Definition glob (root : path) (pattern : string) : result (list path) :=
  if String.eqb pattern "" then
    Raise (ValueError ("Unacceptable pattern: " ++ py_repr pattern))
  else if PyPath.is_absolute pattern then
    Raise (NotImplementedError "Non-relative patterns are unsupported")
  else
    sel <- make_selector (pattern_parts pattern) ;;
    Ok (select_from sel root).

(** [root.rglob(pattern)] *)
Definition rglob (root : path) (pattern : string) : result (list path) :=
  if PyPath.is_absolute pattern then
    Raise (NotImplementedError "Non-relative patterns are unsupported")
  else
    sel <- make_selector ("**" :: pattern_parts pattern) ;;
    Ok (select_from sel root).

End Select.

End Glob.

(** ** Requests and replies *)

Record ReadFileInput : Type := {
  read_path : string;
  max_lines : option nat
}.

Record WriteFileInput : Type := {
  write_path : string;
  content : string;
  overwrite : bool
}.

Record ListDirInput : Type := {
  list_path : string;
  show_hidden : bool
}.

Record SearchFilesInput : Type := {
  pattern : string;
  search_directory : string;
  recursive : bool
}.

Record DeleteFileInput : Type := {
  delete_path : string
}.

Record GrepInput : Type := {
  text : string;
  grep_directory : string;
  file_pattern : string;
  case_sensitive : bool;
  max_results : nat
}.

(** The bounds the input models put on their fields. *)
Definition ReadFileInput_valid (params : ReadFileInput) : Prop :=
  1 <= String.length (read_path params) /\
  match max_lines params with
  | Some n => 1 <= n <= 10 * 1000
  | None => True
  end.

Definition GrepInput_valid (params : GrepInput) : Prop :=
  1 <= String.length (text params) /\ 1 <= max_results params <= 500.

(** The dictionary [_file_info] builds. *)
Record FileInfo : Type := {
  info_name : string;
  info_path : string;
  size_bytes : nat;
  modified : string;
  is_dir : bool
}.

(** The dictionary of [fs_file_info]: for a plain file the two further keys,
    [line_count] being [None] when the file cannot be read. *)
Record FileInfoPlus : Type := {
  info : FileInfo;
  line_count : option (option nat);
  extension : option string
}.

Record ListDirResult : Type := {
  directory : string;
  list_count : nat;
  entries : list FileInfo
}.

Record SearchResult : Type := {
  res_pattern : string;
  res_directory : string;
  res_recursive : bool;
  search_count : nat;
  matches : list FileInfo
}.

Record SearchMatch : Type := {
  match_file : string;
  match_line : nat;
  match_content : string
}.

Record GrepResult : Type := {
  search_text : string;
  files_searched : nat;
  matches_found : nat;
  truncated : bool;
  results : list SearchMatch
}.

(** What a tool returns: a line of text, or the dictionary it hands to
    [json.dumps]. *)
Inductive reply (A : Type) : Type :=
| Text (s : string)
| Json (a : A).

Arguments Text {A} s.
Arguments Json {A} a.

Fixpoint mapM {A B : Type} (f : A -> result B) (l : list A) : result (list B) :=
  match l with
  | [] => Ok []
  | x :: l' => y <- f x ;; ys <- mapM f l' ;; Ok (y :: ys)
  end.

(** Order of the keys [(p.is_file(), p.name.lower())]: [False] before
    [True], then the strings by code point. *)
Definition key_le (k1 k2 : bool * string) : bool :=
  if Bool.eqb (fst k1) (fst k2) then String.leb (snd k1) (snd k2)
  else negb (fst k1).

(** ** The server *)

Section Server.
Context {P : Platform}.

(** The directory the server was launched from, resolved. *)
Variable WORK_DIR : path.

(** [str(e)] *)
Definition exception_str (e : exception) : string :=
  match e with
  | OSError c f =>
    "[Errno " ++ PyStr.of_nat (os_errno c) ++ "] " ++ os_strerror c ++ ": " ++ py_repr f
  | ValueError m => m
  | NotImplementedError m => m
  | IndexError m => m
  end.

Definition _safe_path (raw : string) : result path :=
  let resolved := PyPath.resolve (PyPath.joinpath WORK_DIR raw) in
  if negb (PyStr.startswith (PyPath.str resolved) (PyPath.str WORK_DIR)) then
    Raise (ValueError
             ("Path '" ++ raw ++ "' resolves outside the working directory '"
              ++ PyPath.str WORK_DIR ++ "'. "
              ++ "Only paths inside the working directory are allowed."))
  else Ok resolved.

(** [p.relative_to(WORK_DIR)] *)
Definition relative_to_WORK_DIR (p : path) : result path :=
  match PyPath.strip_prefix WORK_DIR p with
  | Some rel => Ok rel
  | None =>
    Raise (ValueError
             (py_repr (PyPath.str p) ++ " is not in the subpath of "
              ++ py_repr (PyPath.str WORK_DIR)
              ++ " OR one path is relative and the other is absolute."))
  end.

Definition _file_info (fs : node) (p : path) : result FileInfo :=
  st <- FS.stat fs p ;;
  rel <- relative_to_WORK_DIR p ;;
  Ok {| info_name := PyPath.name p;
        info_path := PyPath.str_relative rel;
        size_bytes := st_size st;
        modified := format_mtime (st_mtime st);
        is_dir := FS.is_dir fs p |}.

Definition _handle_error (e : exception) : string :=
  match e with
  | OSError FileNotFoundError filename =>
    "Error: File not found — " ++ filename ++ ". Check the path and try again."
  | OSError PermissionError filename =>
    "Error: Permission denied — " ++ filename
    ++ ". You don't have access to this file."
  | ValueError _ => "Error: " ++ exception_str e
  | _ => "Error: " ++ type_name e ++ ": " ++ exception_str e
  end.

Definition catch (r : result string) : string :=
  match r with
  | Ok s => s
  | Raise e => _handle_error e
  end.

Definition NL : string := String PyStr.LF EmptyString.

(** *** fs_read_file *)

(** The [if]/[else] on [max_lines]: the content and the truncation note. *)
Definition read_body (max_lines : option nat) (text : string) : string * string :=
  let lines := PyStr.splitlines text in
  let total_lines := List.length lines in
  match max_lines with
  | Some n =>
    if negb (Nat.eqb n 0) && Nat.ltb n total_lines then
      (PyStr.join NL (firstn n lines),
       NL ++ NL ++ "[Showing " ++ PyStr.of_nat n ++ " of "
       ++ PyStr.of_nat total_lines ++ " lines. Set max_lines higher to see more.]")
    else (text, "")
  | None => (text, "")
  end.

Definition read_meta (raw : string) (st : stat_result) : string :=
  NL ++ NL ++ "---" ++ NL ++ "File: " ++ raw ++ " | "
  ++ PyStr.of_nat_commas (st_size st) ++ " bytes | "
  ++ "Modified: " ++ format_mtime (st_mtime st).

Definition fs_read_file (fs : node) (params : ReadFileInput) : string :=
  catch (
    target <- _safe_path (read_path params) ;;
    if FS.is_dir fs target then
      Ok ("Error: '" ++ read_path params
          ++ "' is a directory. Use fs_list_directory to list it.")
    else
      text <- FS.read_text fs target ;;
      let (content, truncation_note) := read_body (max_lines params) text in
      st <- FS.stat fs target ;;
      Ok (content ++ truncation_note ++ read_meta (read_path params) st)).

(** *** fs_write_file *)

(** The reply and the file system after the call, made at time [now]. *)
Definition fs_write_file (now : Z) (fs : node) (params : WriteFileInput)
  : string * node :=
  match _safe_path (write_path params) with
  | Raise e => (_handle_error e, fs)
  | Ok target =>
    if FS.exists_ fs target && negb (overwrite params) then
      ("Error: '" ++ write_path params ++ "' already exists. "
       ++ "Set overwrite=true to replace it.", fs)
    else
      match FS.mkdir now fs (PyPath.parent target) with
      | Raise e => (_handle_error e, fs)
      | Ok fs1 =>
        match FS.write_text now fs1 target (content params) with
        | Raise e => (_handle_error e, fs1)
        | Ok fs2 =>
          ("✓ Written " ++ PyStr.of_nat_commas (String.length (content params))
           ++ " bytes to '" ++ write_path params ++ "'." ++ NL
           ++ "Lines: " ++ PyStr.of_nat (PyStr.count PyStr.LF (content params) + 1),
           fs2)
        end
      end
  end.

(** *** fs_delete_file *)

Definition fs_delete_file (now : Z) (fs : node) (params : DeleteFileInput)
  : string * node :=
  match _safe_path (delete_path params) with
  | Raise e => (_handle_error e, fs)
  | Ok target =>
    if negb (FS.exists_ fs target) then
      ("Error: '" ++ delete_path params ++ "' does not exist.", fs)
    else if FS.is_dir fs target then
      ("Error: '" ++ delete_path params ++ "' is a directory. "
       ++ "This tool only deletes files, not directories.", fs)
    else
      match FS.unlink now fs target with
      | Raise e => (_handle_error e, fs)
      | Ok fs1 => ("✓ Deleted '" ++ delete_path params ++ "'.", fs1)
      end
  end.

(** *** fs_list_directory *)

Definition is_hidden (name : string) : bool := PyStr.startswith name ".".

Definition list_key (fs : node) (p : path) : bool * string :=
  (FS.is_file fs p, str_lower (PyPath.name p)).

(** The items the loop keeps, in the order it meets them. *)
Definition list_items (fs : node) (target : path) (show_hidden : bool)
  : result (list path) :=
  names <- FS.listdir fs target ;;
  let children := map (fun n => (target ++ [n])%list) names in
  Ok (filter (fun item => negb (negb show_hidden && is_hidden (PyPath.name item)))
             (sorted (fun p q => key_le (list_key fs p) (list_key fs q)) children)).

Definition fs_list_directory (fs : node) (params : ListDirInput)
  : reply ListDirResult :=
  match
    (target <- _safe_path (list_path params) ;;
     if negb (FS.is_dir fs target) then
       Ok (Text ("Error: '" ++ list_path params ++ "' is not a directory."))
     else
       items <- list_items fs target (show_hidden params) ;;
       entries <- mapM (_file_info fs) items ;;
       Ok (Json {| directory := PyPath.str_of_raw (list_path params);
                   list_count := List.length entries;
                   entries := entries |}))
  with
  | Ok r => r
  | Raise e => Text (_handle_error e)
  end.

(** *** fs_search_files *)

(** The paths of the comprehension: the sorted matches that are plain
    files. *)
Definition search_paths (fs : node) (root : path) (params : SearchFilesInput)
  : result (list path) :=
  found <- (if recursive params then Glob.rglob fs root (pattern params)
            else Glob.glob fs root (pattern params)) ;;
  Ok (filter (FS.is_file fs) (sorted PyPath.leb found)).

Definition fs_search_files (fs : node) (params : SearchFilesInput)
  : reply SearchResult :=
  match
    (root <- _safe_path (search_directory params) ;;
     if negb (FS.is_dir fs root) then
       Ok (Text ("Error: '" ++ search_directory params ++ "' is not a directory."))
     else
       paths <- search_paths fs root params ;;
       matches <- mapM (_file_info fs) paths ;;
       Ok (Json {| res_pattern := pattern params;
                   res_directory := search_directory params;
                   res_recursive := recursive params;
                   search_count := List.length matches;
                   matches := matches |}))
  with
  | Ok r => r
  | Raise e => Text (_handle_error e)
  end.

(** *** fs_grep *)

Section Grep.
Variable fs : node.
Variable params : GrepInput.

Definition needle : string :=
  if case_sensitive params then text params else str_lower (text params).

Definition line_matches (line : string) : bool :=
  PyStr.contains needle (if case_sensitive params then line else str_lower line).

(** The inner loop over the lines of [filepath], from line [lineno] on:
    it stops as soon as [results] holds [max_results] matches. *)
Fixpoint scan_lines (filepath : path) (lineno : nat) (lines : list string)
         (results : list SearchMatch) : result (list SearchMatch) :=
  match lines with
  | [] => Ok results
  | line :: lines' =>
    if line_matches line then
      rel <- relative_to_WORK_DIR filepath ;;
      let results' :=
        (results ++ [{| match_file := PyPath.str_relative rel;
                        match_line := lineno;
                        match_content := str_rstrip line |}])%list in
      if Nat.leb (max_results params) (List.length results') then Ok results'
      else scan_lines filepath (S lineno) lines' results'
    else scan_lines filepath (S lineno) lines' results
  end.

(** The outer loop over the files, with [results] and [files_searched]. *)
Fixpoint scan_files (files : list path) (results : list SearchMatch)
         (files_searched : nat) : result (list SearchMatch * nat) :=
  match files with
  | [] => Ok (results, files_searched)
  | filepath :: files' =>
    if negb (FS.is_file fs filepath) then scan_files files' results files_searched
    else
      match FS.read_text fs filepath with
      | Raise _ => scan_files files' results files_searched
      | Ok text =>
        results' <- scan_lines filepath 1 (PyStr.splitlines text) results ;;
        if Nat.leb (max_results params) (List.length results')
        then Ok (results', S files_searched)
        else scan_files files' results' (S files_searched)
      end
  end.

Definition fs_grep : reply GrepResult :=
  match
    (root <- _safe_path (grep_directory params) ;;
     found <- Glob.rglob fs root (file_pattern params) ;;
     out <- scan_files (sorted PyPath.leb found) [] 0 ;;
     Ok (Json {| search_text := text params;
                 files_searched := snd out;
                 matches_found := List.length (fst out);
                 truncated := Nat.leb (max_results params) (List.length (fst out));
                 results := fst out |}))
  with
  | Ok r => r
  | Raise e => Text (_handle_error e)
  end.

End Grep.

(** *** fs_file_info *)

(** [text.count(chr(10)) + 1] *)
Definition count_lines (text : string) : nat := PyStr.count PyStr.LF text + 1.

Definition fs_file_info (fs : node) (raw : string) : reply FileInfoPlus :=
  match
    (target <- _safe_path raw ;;
     info <- _file_info fs target ;;
     if FS.is_file fs target then
       let line_count :=
         match FS.read_text fs target with
         | Ok text => Some (count_lines text)
         | Raise _ => None
         end in
       Ok (Json {| info := info;
                   line_count := Some line_count;
                   extension := Some (if String.eqb (PyPath.suffix target) ""
                                      then "(none)" else PyPath.suffix target) |})
     else Ok (Json {| info := info; line_count := None; extension := None |}))
  with
  | Ok r => r
  | Raise e => Text (_handle_error e)
  end.

End Server.

(** ** A platform and two file systems for the examples *)

Module Sample.

Definition lower_char (c : ascii) : ascii :=
  let n := nat_of_ascii c in
  if Nat.leb 65 n && Nat.leb n 90 then ascii_of_nat (n + 32) else c.

Fixpoint lower (s : string) : string :=
  match s with
  | EmptyString => EmptyString
  | String c s' => String (lower_char c) (lower s')
  end.

Definition is_blank (c : ascii) : bool :=
  let n := nat_of_ascii c in
  Nat.eqb n 32 || (Nat.leb 9 n && Nat.leb n 13).

Fixpoint rstrip (s : string) : string :=
  match s with
  | EmptyString => EmptyString
  | String c s' =>
    match rstrip s' with
    | EmptyString => if is_blank c then EmptyString else String c EmptyString
    | t => String c t
    end
  end.

(** Shell matching with [*] and [?] only. *)
Fixpoint wild (pat : string) : string -> bool :=
  match pat with
  | EmptyString => fun name => String.eqb name ""
  | String c pat' =>
    if Ascii.eqb c "*"%char then
      fix star (name : string) : bool :=
        wild pat' name ||
        match name with
        | EmptyString => false
        | String _ name' => star name'
        end
    else if Ascii.eqb c "?"%char then
      fun name =>
        match name with
        | EmptyString => false
        | String _ name' => wild pat' name'
        end
    else
      fun name =>
        match name with
        | EmptyString => false
        | String d name' => Ascii.eqb c d && wild pat' name'
        end
  end.

(** ASCII text, names without quotes, time stamps shown as a number of
    seconds. *)
#[local] Instance platform : Platform := {
  str_lower := lower;
  str_rstrip := rstrip;
  py_repr := fun s => "'" ++ s ++ "'";
  format_mtime := fun t => PyStr.of_nat (Z.to_nat t);
  fnmatch := fun name pat => wild pat name;
  new_dir_size := 64
}.

Definition plain (text : string) (mtime : Z) : node :=
  File (mk_file text (mk_stat (String.length text) mtime) true).

Definition folder (es : list (string * node)) : node := Dir (mk_stat 64 0) es.

Definition LFs : string := String PyStr.LF EmptyString.
Definition FFs : string := String (ascii_of_nat 12) EmptyString.

(** Root [/work]. *)
Definition work : path := ["work"].

Definition work_fs : node :=
  folder
    [("work",
      folder
        [("b.txt", plain "beta" 5);
         ("sub", folder [("b.txt", plain ("todo item" ++ LFs ++ "done") 7)]);
         ("a.txt", plain ("hello" ++ LFs ++ "world") 3);
         (".env", plain "KEY=1" 4);
         ("A.md", plain ("TODO one" ++ LFs ++ "x" ++ LFs ++ "todo two  ") 6);
         ("Docs", folder [])])].

(** Root [/data], next to [/data-secret]. *)
Definition data : path := ["data"].

Definition data_fs : node :=
  folder
    [("data", folder [("x", plain "mine" 1)]);
     ("data-secret", folder [("x", plain "theirs" 2)])].

End Sample.

(** ** Vocabulary of the statements *)

Definition b2n (b : bool) : nat := if b then 1 else 0.

Definition key_eqb (k1 k2 : bool * string) : bool :=
  Bool.eqb (fst k1) (fst k2) && String.eqb (snd k1) (snd k2).

(** The order of a listing: a directory before a plain file, and within
    one kind the lower-cased names ascending by code point. *)
Definition list_order {P : Platform} (fs : node) (p q : path) : Prop :=
  (FS.is_file fs p = false /\ FS.is_file fs q = true) \/
  (FS.is_file fs p = FS.is_file fs q /\
   String.leb (str_lower (PyPath.name p)) (str_lower (PyPath.name q)) = true).

(** The children of [target] that a listing shows. *)
Definition visible_children (target : path) (names : list string) (show_hidden : bool)
  : list path :=
  filter (fun item => negb (negb show_hidden && is_hidden (PyPath.name item)))
         (map (fun n => (target ++ [n])%list) names).

(** The matching lines among [lines], numbered from [lineno] on. *)
Fixpoint line_hits {P : Platform} (params : GrepInput) (lineno : nat) (lines : list string)
  : list (nat * string) :=
  match lines with
  | [] => []
  | line :: lines' =>
    if line_matches params line
    then (lineno, line) :: line_hits params (S lineno) lines'
    else line_hits params (S lineno) lines'
  end.

(** The matching lines of [filepath], none when it is not a plain file or
    cannot be read. *)
Definition file_hits {P : Platform} (fs : node) (params : GrepInput) (filepath : path)
  : list (path * nat * string) :=
  if FS.is_file fs filepath then
    match FS.read_text fs filepath with
    | Ok text =>
      map (fun h => (filepath, fst h, snd h))
          (line_hits params 1 (PyStr.splitlines text))
    | Raise _ => []
    end
  else [].

(** Every matching line under the files of [files], file after file and
    line after line. *)
Definition all_hits {P : Platform} (fs : node) (params : GrepInput) (files : list path)
  : list (path * nat * string) :=
  flat_map (file_hits fs params) files.

(** The match [m] reports the hit [h]. *)
Definition reports {P : Platform} (WORK_DIR : path) (h : path * nat * string)
           (m : SearchMatch) : Prop :=
  exists rel,
    PyPath.strip_prefix WORK_DIR (fst (fst h)) = Some rel /\
    m = {| match_file := PyPath.str_relative rel;
           match_line := snd (fst h);
           match_content := str_rstrip (snd h) |}.

Definition is_Dir (n : node) : Prop :=
  match n with Dir _ _ => True | File _ => False end.

(** A path without [..] segment. *)
Definition no_dotdot (p : path) : Prop := Forall (fun s => s <> "..") p.

(** A segment as a resolved path holds them: not empty, not [.], not [..],
    and without [/]. *)
Definition plain_segment (s : string) : Prop :=
  s <> "" /\ s <> "." /\ s <> ".." /\ PyStr.contains "/" s = false.

Definition plain_path (p : path) : Prop := Forall plain_segment p.

(** A plain file that can be read. *)
Definition readable_file (fs : node) (p : path) : bool :=
  FS.is_file fs p &&
  match FS.read_text fs p with
  | Ok _ => true
  | Raise _ => false
  end.

(** * Properties *)

(** ** Path walks *)

Lemma walk_snoc_dir (p : path) : forall anc cur s n,
  FS.walk anc cur (p ++ [s])%list = inr n ->
  exists st es, FS.walk anc cur p = inr (Dir st es).
Proof.
  induction p as [|a p IH]; intros anc cur s n H.
  - destruct cur as [f|st es]; [discriminate|]. exists st, es. reflexivity.
  - cbn [app FS.walk] in *. destruct cur as [f|st es]; [discriminate|].
    destruct (String.eqb a "..").
    + destruct anc; eapply IH; eassumption.
    + destruct (FS.find_entry a es); [|discriminate]. eapply IH; eassumption.
Qed.

Lemma lookup_dir_parent (fs : node) (p : path) st es :
  FS.lookup fs p = inr (Dir st es) -> FS.is_dir fs (PyPath.parent p) = true.
Proof.
  intros H. unfold FS.is_dir, PyPath.parent.
  destruct p as [|a p'] using rev_ind.
  - cbn [removelast]. rewrite H. reflexivity.
  - rewrite removelast_last.
    destruct (walk_snoc_dir _ _ _ _ _ H) as (st' & es' & E).
    unfold FS.lookup. rewrite E. reflexivity.
Qed.

(** ** Lines *)

Lemma splitlines_cons (c : ascii) (s : string) : PyStr.splitlines (String c s) <> [].
Proof.
  cbn [PyStr.splitlines].
  repeat match goal with
         | |- context [if ?b then _ else _] => destruct b
         | |- context [match ?x with EmptyString => _ | String _ _ => _ end] => destruct x
         | |- PyStr.cons_line _ ?l <> [] => destruct l; cbn
         end; discriminate.
Qed.

(** When LF is the only boundary in [s], [splitlines] opens one line per LF
    and one more for what follows the last LF, if anything does. *)
Lemma splitlines_length_lf (s : string) :
  PyStr.other_break s = false ->
  List.length (PyStr.splitlines s) + b2n (PyStr.ends_with s (String PyStr.LF ""))
  = PyStr.count PyStr.LF s + b2n (negb (String.eqb s "")).
Proof.
  induction s as [|c rest IH]; intros H; [reflexivity|].
  cbn [PyStr.other_break] in H.
  apply orb_false_elim in H as [H Hrest].
  apply orb_false_elim in H as [H Hmulti].
  apply orb_false_elim in H as [Hcr Hctl].
  specialize (IH Hrest).
  cbn [PyStr.splitlines PyStr.count PyStr.ends_with String.eqb].
  rewrite Hcr, Hctl.
  destruct (Ascii.eqb c PyStr.LF) eqn:Hlf.
  - destruct rest as [|c1 rest1]; [reflexivity|].
    cbn [String.eqb andb orb List.length] in *. cbn [negb b2n] in *. lia.
  - cbn [andb orb].
    destruct rest as [|c1 rest1]; [reflexivity|].
    apply orb_false_elim in Hmulti as [Hnel Hls]. rewrite Hnel.
    assert (E : List.length (PyStr.cons_line c (PyStr.splitlines (String c1 rest1)))
                = List.length (PyStr.splitlines (String c1 rest1))).
    { pose proof (splitlines_cons c1 rest1) as N.
      destruct (PyStr.splitlines (String c1 rest1)); [contradiction|reflexivity]. }
    destruct rest1 as [|c2 rest2].
    + rewrite E. cbn [String.eqb negb b2n] in *. lia.
    + rewrite Hls, E. cbn [String.eqb negb b2n] in *. lia.
Qed.

Lemma handle_error_prefix {P : Platform} (e : exception) :
  PyStr.startswith (_handle_error e) "Error: " = true.
Proof. destruct e as [[] f|m|m|m]; try reflexivity. destruct m; reflexivity. Qed.

(** ** Stable sorting *)

Lemma string_leb_trans (a b c : string) :
  String.leb a b = true -> String.leb b c = true -> String.leb a c = true.
Proof.
  unfold String.leb. revert b c.
  induction a as [|x a IH]; intros [|y b] [|z c]; cbn; try easy.
  unfold Ascii.compare.
  destruct (N.compare_spec (N_of_ascii x) (N_of_ascii y)) as [E1|L1|G1];
    destruct (N.compare_spec (N_of_ascii y) (N_of_ascii z)) as [E2|L2|G2];
    destruct (N.compare_spec (N_of_ascii x) (N_of_ascii z)) as [E3|L3|G3];
    try easy; try lia.
  apply IH.
Qed.

Lemma key_le_spec (k1 k2 : bool * string) :
  key_le k1 k2 = true <->
  (fst k1 = false /\ fst k2 = true) \/
  (fst k1 = fst k2 /\ String.leb (snd k1) (snd k2) = true).
Proof.
  destruct k1 as [[] s1], k2 as [[] s2]; unfold key_le; cbn; intuition congruence.
Qed.

Lemma key_le_total (k1 k2 : bool * string) :
  key_le k1 k2 = true \/ key_le k2 k1 = true.
Proof.
  destruct k1 as [[] s1], k2 as [[] s2]; unfold key_le; cbn; auto using String.leb_total.
Qed.

Lemma key_le_trans (k1 k2 k3 : bool * string) :
  key_le k1 k2 = true -> key_le k2 k3 = true -> key_le k1 k3 = true.
Proof.
  destruct k1 as [[] s1], k2 as [[] s2], k3 as [[] s3]; unfold key_le; cbn;
    eauto using string_leb_trans; discriminate.
Qed.

Lemma key_eqb_spec (k1 k2 : bool * string) : key_eqb k1 k2 = true <-> k1 = k2.
Proof.
  destruct k1 as [b1 s1], k2 as [b2 s2]. unfold key_eqb. cbn.
  rewrite andb_true_iff, Bool.eqb_true_iff, String.eqb_eq.
  split; [intros [-> ->]; reflexivity|intros [= -> ->]; auto].
Qed.

Section SortedFacts.
Context {A K : Type}.
Variable key : A -> K.
Variable kle : K -> K -> bool.
Variable keqb : K -> K -> bool.
Hypothesis kle_total : forall a b, kle a b = true \/ kle b a = true.
Hypothesis kle_trans : forall a b c, kle a b = true -> kle b c = true -> kle a c = true.
Hypothesis keqb_eq : forall a b, keqb a b = true <-> a = b.

Local Abbreviation le := (fun x y : A => kle (key x) (key y)).

Lemma insert_sorted_perm (x : A) (l : list A) :
  Permutation (insert_sorted le x l) (x :: l).
Proof.
  induction l as [|y l IH]; cbn; [apply Permutation_refl|].
  destruct (le x y); [apply Permutation_refl|].
  eapply perm_trans; [apply perm_skip, IH|apply perm_swap].
Qed.

Lemma sorted_perm (l : list A) : Permutation (sorted le l) l.
Proof.
  induction l as [|x l IH]; cbn; [apply perm_nil|].
  eapply perm_trans; [apply insert_sorted_perm|apply perm_skip, IH].
Qed.

Lemma insert_sorted_ordered (x : A) (l : list A) :
  StronglySorted (fun a b => le a b = true) l ->
  StronglySorted (fun a b => le a b = true) (insert_sorted le x l).
Proof.
  induction l as [|y l IH]; intros S; cbn.
  - constructor; constructor.
  - inversion S as [|? ? S' F]; subst.
    destruct (le x y) eqn:E.
    + constructor; [exact S|]. constructor; [exact E|].
      eapply Forall_impl; [|exact F]. intros z Hz. cbv beta in *. eauto.
    + constructor; [apply IH, S'|].
      eapply Permutation_Forall; [apply Permutation_sym, insert_sorted_perm|].
      constructor; [|exact F].
      destruct (kle_total (key x) (key y)) as [C|C]; cbv beta in *; congruence.
Qed.

Lemma sorted_ordered (l : list A) :
  StronglySorted (fun a b => le a b = true) (sorted le l).
Proof.
  induction l as [|x l IH]; cbn; [constructor|]. apply insert_sorted_ordered, IH.
Qed.

(** Stability: the elements of any one key keep the order they came in. *)
Lemma insert_sorted_stable (k : K) (x : A) (l : list A) :
  filter (fun a => keqb (key a) k) (insert_sorted le x l)
  = filter (fun a => keqb (key a) k) (x :: l).
Proof.
  induction l as [|y l IH]; [reflexivity|].
  cbn [insert_sorted]. destruct (le x y) eqn:E; [reflexivity|].
  cbn [filter] in *. rewrite IH.
  destruct (keqb (key x) k) eqn:Ex, (keqb (key y) k) eqn:Ey; try reflexivity.
  apply keqb_eq in Ex, Ey. cbv beta in E. rewrite Ex, Ey in E.
  destruct (kle_total k k); congruence.
Qed.

Lemma sorted_stable (k : K) (l : list A) :
  filter (fun a => keqb (key a) k) (sorted le l) = filter (fun a => keqb (key a) k) l.
Proof.
  induction l as [|x l IH]; [reflexivity|].
  cbn [sorted]. rewrite insert_sorted_stable. cbn [filter]. rewrite IH. reflexivity.
Qed.

End SortedFacts.

Lemma filter_perm {A : Type} (f : A -> bool) (l l' : list A) :
  Permutation l l' -> Permutation (filter f l) (filter f l').
Proof.
  induction 1 as [|x l l' _ IH|x y l|l l' l'' _ IH1 _ IH2]; cbn.
  - apply perm_nil.
  - destruct (f x); [apply perm_skip|]; exact IH.
  - destruct (f x), (f y); try apply Permutation_refl. apply perm_swap.
  - eapply perm_trans; eassumption.
Qed.

Lemma filter_strongly_sorted {A : Type} (R : A -> A -> Prop) (f : A -> bool) (l : list A) :
  StronglySorted R l -> StronglySorted R (filter f l).
Proof.
  induction 1 as [|x l S IH F]; cbn; [constructor|].
  destruct (f x); [|exact IH]. constructor; [exact IH|].
  rewrite Forall_forall in *. intros y Hy. apply filter_In in Hy as [Hy _]. auto.
Qed.

Lemma filter_comm {A : Type} (f g : A -> bool) (l : list A) :
  filter f (filter g l) = filter g (filter f l).
Proof.
  induction l as [|x l IH]; [reflexivity|]. cbn.
  destruct (f x) eqn:Ef, (g x) eqn:Eg; cbn; rewrite ?Ef, ?Eg, IH; reflexivity.
Qed.

Lemma strongly_sorted_impl {A : Type} (R R' : A -> A -> Prop) (l : list A) :
  (forall a b, R a b -> R' a b) -> StronglySorted R l -> StronglySorted R' l.
Proof.
  intros H. induction 1 as [|x l S IH F]; constructor; [exact IH|].
  eapply Forall_impl; [|exact F]. intros; auto.
Qed.

(** A walk that succeeds can be resumed from the node it reached; the
    ancestors it holds then are directories when the ones it started with
    were. *)
Lemma walk_app (p : path) : forall anc cur n,
  FS.walk anc cur p = inr n ->
  Forall is_Dir anc ->
  exists anc',
    Forall is_Dir anc' /\
    forall q, FS.walk anc cur (p ++ q)%list = FS.walk anc' n q.
Proof.
  induction p as [|a p IH]; intros anc cur n H F.
  - injection H as <-. exists anc. split; [exact F|reflexivity].
  - cbn [FS.walk app] in *. destruct cur as [f|st es]; [discriminate|].
    destruct (String.eqb a "..").
    + destruct anc as [|b anc].
      * apply (IH _ _ _ H F).
      * inversion F; subst. apply (IH _ _ _ H). assumption.
    + destruct (FS.find_entry a es) as [c|]; [|discriminate].
      apply (IH _ _ _ H). constructor; [exact I|exact F].
Qed.

Lemma find_entry_in (name : string) (es : list (string * node)) (c : node) :
  FS.find_entry name es = Some c -> In name (map fst es).
Proof.
  induction es as [|[k n] es IH]; cbn; [discriminate|].
  destruct (String.eqb_spec k name); [auto|]. intros H. right. auto.
Qed.

Lemma in_find_entry (name : string) (es : list (string * node)) :
  In name (map fst es) -> exists c, FS.find_entry name es = Some c.
Proof.
  induction es as [|[k n] es IH]; cbn; [contradiction|].
  destruct (String.eqb_spec k name); [eauto|]. intros [H|H]; [contradiction|auto].
Qed.

(** The node one step below a directory. *)
Lemma lookup_child (fs : node) (p : path) st es (name : string) :
  FS.lookup fs p = inr (Dir st es) ->
  exists up,
    is_Dir up /\
    FS.lookup fs (p ++ [name])%list
    = if String.eqb name ".." then inr up
      else match FS.find_entry name es with
           | Some c => inr c
           | None => inl ENOENT
           end.
Proof.
  intros H. unfold FS.lookup in *.
  destruct (walk_app p [] fs _ H (Forall_nil _)) as (anc & F & E).
  rewrite E. cbn [FS.walk].
  destruct (String.eqb name "..").
  - destruct anc as [|a anc].
    + exists (Dir st es). split; [exact I|reflexivity].
    + inversion F; subst. exists a. split; [assumption|].
      destruct a; [contradiction|reflexivity].
  - exists (Dir st es). split; [exact I|].
    destruct (FS.find_entry name es); reflexivity.
Qed.

Lemma is_file_child (fs : node) (p : path) st es (name : string) :
  FS.lookup fs p = inr (Dir st es) ->
  FS.is_file fs (p ++ [name])%list = true ->
  In name (map fst es).
Proof.
  intros H F. destruct (lookup_child fs p st es name H) as (up & U & E).
  unfold FS.is_file in F. rewrite E in F.
  destruct (String.eqb name "..").
  - destruct up; [contradiction|discriminate].
  - destruct (FS.find_entry name es) as [c|] eqn:Ef; [|discriminate].
    eapply find_entry_in; eassumption.
Qed.

Lemma strip_prefix_app (base p rel q : path) :
  PyPath.strip_prefix base p = Some rel ->
  PyPath.strip_prefix base (p ++ q)%list = Some (rel ++ q)%list.
Proof.
  revert p. induction base as [|b base IH]; intros p H; cbn in *.
  - injection H as <-. reflexivity.
  - destruct p as [|s p]; [discriminate|]. cbn.
    destruct (String.eqb b s); [auto|discriminate].
Qed.

Lemma mapM_Forall2 {A B : Type} (f : A -> result B) (l : list A) (l' : list B) :
  mapM f l = Ok l' -> Forall2 (fun x y => f x = Ok y) l l'.
Proof.
  revert l'. induction l as [|x l IH]; intros l' H; cbn in H.
  - injection H as <-. constructor.
  - destruct (f x) as [y|e] eqn:E; [|discriminate]. cbn [bind] in H.
    destruct (mapM f l) as [ys|e]; [|discriminate]. cbn [bind] in H.
    injection H as <-. constructor; auto.
Qed.

Lemma mapM_total {A B : Type} (f : A -> result B) (l : list A) :
  Forall (fun x => exists y, f x = Ok y) l -> exists l', mapM f l = Ok l'.
Proof.
  induction 1 as [|x l [y E] _ [ys IH]]; cbn.
  - eauto.
  - rewrite E, IH. cbn. eauto.
Qed.

(** ** Order of paths *)

Lemma string_compare_refl (a : string) : String.compare a a = Eq.
Proof.
  pose proof (String.compare_antisym a a) as H.
  destruct (String.compare a a); try reflexivity; discriminate.
Qed.

Lemma string_compare_lt_trans (a b c : string) :
  String.compare a b = Lt -> String.compare b c = Lt -> String.compare a c = Lt.
Proof.
  revert b c.
  induction a as [|x a IH]; intros [|y b] [|z c]; cbn; try easy.
  unfold Ascii.compare.
  destruct (N.compare_spec (N_of_ascii x) (N_of_ascii y)) as [E1|L1|G1];
    destruct (N.compare_spec (N_of_ascii y) (N_of_ascii z)) as [E2|L2|G2];
    destruct (N.compare_spec (N_of_ascii x) (N_of_ascii z)) as [E3|L3|G3];
    try easy; try lia.
  apply IH.
Qed.

Lemma path_leb_total (p q : path) : PyPath.leb p q = true \/ PyPath.leb q p = true.
Proof.
  revert q. induction p as [|a p IH]; intros [|b q]; cbn; auto.
  rewrite (String.compare_antisym b a).
  destruct (String.compare a b); cbn; auto.
Qed.

Lemma path_leb_trans (p q r : path) :
  PyPath.leb p q = true -> PyPath.leb q r = true -> PyPath.leb p r = true.
Proof.
  revert q r. induction p as [|a p IH]; intros [|b q] [|c r]; cbn; try easy.
  destruct (String.compare a b) eqn:E1; try easy;
    destruct (String.compare b c) eqn:E2; try easy.
  - apply String.compare_eq_iff in E1, E2. subst.
    rewrite string_compare_refl. apply IH.
  - apply String.compare_eq_iff in E1. subst. rewrite E2. reflexivity.
  - apply String.compare_eq_iff in E2. subst. rewrite E1. reflexivity.
  - rewrite (string_compare_lt_trans _ _ _ E1 E2). reflexivity.
Qed.

Lemma sorted_paths_ascending (l : list path) :
  StronglySorted (fun p q => PyPath.leb p q = true) (sorted PyPath.leb l).
Proof.
  apply (sorted_ordered (fun p : path => p) PyPath.leb path_leb_total path_leb_trans).
Qed.

(** ** Patterns of one segment *)

Lemma prefix_empty (s : string) : String.prefix "" s = true.
Proof. destruct s; reflexivity. Qed.

Lemma contains_slash_cons (c : ascii) (s : string) :
  PyStr.contains "/" (String c s) = false ->
  Ascii.eqb c "/"%char = false /\ PyStr.contains "/" s = false.
Proof.
  cbn [PyStr.contains String.prefix]. intros H.
  apply orb_false_elim in H as [H1 H2]. split; [|exact H2].
  destruct (Ascii.eqb_spec c "/"%char) as [->|]; [|reflexivity].
  destruct (ascii_dec "/" "/"); [|congruence]. rewrite prefix_empty in H1. discriminate.
Qed.

Lemma append_snoc (a : string) (c : ascii) (b : string) :
  (a ++ String c EmptyString) ++ b = a ++ String c b.
Proof. induction a as [|x a IH]; cbn; [reflexivity|]. rewrite IH. reflexivity. Qed.

Lemma split_slash_from_plain (s : string) : forall cur,
  PyStr.contains "/" s = false -> PyPath.split_slash_from cur s = [cur ++ s].
Proof.
  induction s as [|c s IH]; intros cur H.
  - cbn. replace (cur ++ "") with cur; [reflexivity|].
    induction cur as [|x cur IHc]; cbn; [reflexivity|]. rewrite <- IHc. reflexivity.
  - apply contains_slash_cons in H as [Hc Hs]. cbn [PyPath.split_slash_from].
    rewrite Hc, (IH _ Hs), append_snoc. reflexivity.
Qed.

Lemma ends_with_slash_contains (s : string) :
  PyStr.ends_with s "/" = true -> PyStr.contains "/" s = true.
Proof.
  induction s as [|c s IH]; [discriminate|].
  cbn [PyStr.ends_with PyStr.contains]. intros H.
  apply orb_true_iff in H as [H|H].
  - apply String.eqb_eq in H. injection H as -> ->. reflexivity.
  - rewrite (IH H). apply orb_true_r.
Qed.

Lemma pattern_parts_plain (pat : string) :
  PyStr.contains "/" pat = false ->
  Glob.pattern_parts pat = [] \/ Glob.pattern_parts pat = [pat].
Proof.
  intros H. unfold Glob.pattern_parts, PyPath.parse_parts, PyPath.split_slash.
  rewrite (split_slash_from_plain pat "" H). cbn [append filter].
  destruct (PyStr.ends_with pat "/") eqn:E.
  - apply ends_with_slash_contains in E. congruence.
  - rewrite app_nil_r. destruct (negb _); auto.
Qed.

Lemma file_info_is_dir {P : Platform} (WORK_DIR : path) (fs : node) (p : path) (m : FileInfo) :
  _file_info WORK_DIR fs p = Ok m -> is_dir m = FS.is_dir fs p.
Proof.
  unfold _file_info. intros H.
  destruct (FS.stat fs p); [|discriminate]. cbn [bind] in H.
  destruct (relative_to_WORK_DIR WORK_DIR p); [|discriminate]. cbn [bind] in H.
  injection H as <-. reflexivity.
Qed.

Lemma is_file_not_dir (fs : node) (p : path) :
  FS.is_file fs p = true -> FS.is_dir fs p = false.
Proof.
  unfold FS.is_file, FS.is_dir. destruct (FS.lookup fs p) as [e|[f|st es]]; easy.
Qed.

(** What [glob] finds for a pattern of one segment other than [**], among
    the plain files: entries of the directory itself. *)
Lemma glob_plain_direct {P : Platform} (fs : node) (root : path) (pat : string)
      (found : list path) (p : path) :
  PyStr.contains "/" pat = false ->
  pat <> "**" ->
  Glob.glob fs root pat = Ok found ->
  In p found ->
  FS.is_file fs p = true ->
  exists name, p = (root ++ [name])%list /\ In name (map fst (Glob.scandir fs root)).
Proof.
  intros Hs Hss Hg Hin Hf. unfold Glob.glob in Hg.
  destruct (String.eqb pat ""); [discriminate|].
  destruct (PyPath.is_absolute pat); [discriminate|].
  destruct (pattern_parts_plain pat Hs) as [E|E]; rewrite E in Hg; [discriminate|].
  cbn [Glob.make_selector bind Glob.nonempty] in Hg.
  destruct (String.eqb pat "") eqn:E0; [injection Hg as <-|].
  { unfold Glob.select_from in Hin. destruct (FS.is_dir fs root) eqn:Ed; [|contradiction].
    destruct Hin as [<-|[]]. rewrite (is_file_not_dir _ _ Hf) in Ed. discriminate. }
  destruct (String.eqb_spec pat "**"); [contradiction|].
  destruct (PyStr.contains "**" pat); [discriminate|].
  unfold Glob.select_from in *.
  destruct (Glob.is_wildcard_pattern pat); cbn [bind] in Hg; injection Hg as <-;
    destruct (FS.is_dir fs root) eqn:Ed; try contradiction; cbn [Glob.select andb] in Hin.
  - apply in_flat_map in Hin as (e & He & Hp).
    destruct (fnmatch (fst e) pat); [|contradiction].
    destruct Hp as [<-|[]]. exists (fst e). split; [reflexivity|]. apply in_map, He.
  - destruct (FS.exists_ fs (root ++ [pat])%list); [|contradiction].
    destruct Hin as [<-|[]]. exists pat. split; [reflexivity|].
    unfold FS.is_dir in Ed. unfold Glob.scandir.
    destruct (FS.lookup fs root) as [e|[f|st es]] eqn:El; try discriminate.
    eapply is_file_child; eassumption.
Qed.

(** ** The loops of fs_grep *)

Lemma firstn_short {A : Type} (n : nat) (l : list A) :
  List.length (firstn n l) < n -> firstn n l = l.
Proof.
  intros H. apply firstn_all2. rewrite length_firstn in H. lia.
Qed.

Lemma firstn_full_app {A : Type} (n : nat) (l l' : list A) :
  n <= List.length l -> firstn n (l ++ l') = firstn n l.
Proof.
  intros H. rewrite firstn_app.
  replace (n - List.length l) with 0 by lia. cbn. apply app_nil_r.
Qed.

Section GrepFacts.
Context {P : Platform}.
Variable WORK_DIR : path.
Variable fs : node.
Variable params : GrepInput.

Local Abbreviation M := (max_results params).

Lemma scan_lines_hits (filepath : path) (lines : list string) :
  forall lineno acc prev res,
    Forall2 (reports WORK_DIR) prev acc ->
    List.length acc < M ->
    scan_lines WORK_DIR params filepath lineno lines acc = Ok res ->
    Forall2 (reports WORK_DIR)
            (firstn M (prev ++ map (fun h => (filepath, fst h, snd h))
                                   (line_hits params lineno lines)))
            res.
Proof.
  induction lines as [|line lines IH]; intros lineno acc prev res F L H.
  - cbn in *. injection H as <-. rewrite app_nil_r.
    rewrite firstn_all2; [exact F|]. rewrite (Forall2_length F). lia.
  - cbn [scan_lines line_hits] in *.
    destruct (line_matches params line); [|eapply IH; eassumption].
    unfold relative_to_WORK_DIR in H.
    destruct (PyPath.strip_prefix WORK_DIR filepath) as [rel|] eqn:Er; [|discriminate].
    cbn [bind map] in H.
    set (m := {| match_file := PyPath.str_relative rel;
                 match_line := lineno;
                 match_content := str_rstrip line |}) in *.
    assert (F' : Forall2 (reports WORK_DIR) (prev ++ [(filepath, lineno, line)]) (acc ++ [m])).
    { apply Forall2_app; [exact F|]. constructor; [|constructor].
      exists rel. split; [exact Er|reflexivity]. }
    cbn [map fst snd].
    match goal with
    | |- context [(prev ++ ?x :: ?t)%list] =>
      change (prev ++ x :: t)%list with (prev ++ [x] ++ t)%list
    end.
    rewrite app_assoc.
    destruct (Nat.leb (max_results params) (List.length (acc ++ [m]))) eqn:E.
    + injection H as <-. apply Nat.leb_le in E.
      rewrite firstn_full_app by (rewrite (Forall2_length F'); exact E).
      rewrite firstn_all2; [exact F'|].
      rewrite (Forall2_length F'), length_app. cbn. lia.
    + apply Nat.leb_gt in E. eapply IH; eassumption.
Qed.

Lemma scan_files_hits (files : list path) :
  forall acc prev n out,
    Forall2 (reports WORK_DIR) prev acc ->
    List.length acc < M ->
    scan_files WORK_DIR fs params files acc n = Ok out ->
    Forall2 (reports WORK_DIR) (firstn M (prev ++ all_hits fs params files)) (fst out).
Proof.
  induction files as [|f files IH]; intros acc prev n out F L H.
  - cbn in *. injection H as <-. rewrite app_nil_r.
    rewrite firstn_all2; [exact F|]. rewrite (Forall2_length F). lia.
  - cbn [scan_files] in H. unfold all_hits in *. cbn [flat_map].
    unfold file_hits at 1.
    destruct (FS.is_file fs f); cbn [negb] in H; [|eapply IH; eassumption].
    destruct (FS.read_text fs f) as [text|e]; [|eapply IH; eassumption].
    destruct (scan_lines WORK_DIR params f 1 (PyStr.splitlines text) acc)
      as [res|e] eqn:Es; [|discriminate].
    cbn [bind] in H.
    pose proof (scan_lines_hits f _ _ _ _ _ F L Es) as F'.
    rewrite app_assoc.
    destruct (Nat.leb (max_results params) (List.length res)) eqn:E.
    + injection H as <-. cbn [fst]. apply Nat.leb_le in E.
      rewrite firstn_full_app; [exact F'|].
      pose proof (Forall2_length F') as Len. rewrite length_firstn in Len.
      lia.
    + apply Nat.leb_gt in E.
      rewrite firstn_short in F' by (rewrite (Forall2_length F'); exact E).
      eapply IH; eassumption.
Qed.

End GrepFacts.

Section Properties.
Context {P : Platform}.
Variable WORK_DIR : path.

(** [mkdir(parents=True, exist_ok=True)] on a directory that is there
    changes nothing. *)
Lemma mkdir_existing (now : Z) (fs : node) (p : path) :
  FS.is_dir fs p = true -> FS.mkdir now fs p = Ok fs.
Proof.
  intros H. unfold FS.mkdir.
  assert (E : FS.os_mkdir now fs (rev (rev p))
              = Raise (OSError FileExistsError (PyPath.str (rev (rev p))))).
  { unfold FS.os_mkdir. rewrite rev_involutive. unfold FS.is_dir in H.
    destruct (FS.lookup fs p); [discriminate|reflexivity]. }
  assert (D : FS.is_dir fs (rev (rev p)) = true) by (rewrite rev_involutive; exact H).
  destruct (rev p); cbn [FS.mkdir_parents]; rewrite E, D; reflexivity.
Qed.

(** A path the prefix test refuses: the reply of every mutating tool names
    the raw path and the root, and the file system is left as it was. *)
Lemma refused_path_no_mutation (now : Z) (fs : node) (raw : string) :
  PyStr.startswith (PyPath.str (PyPath.resolve (PyPath.joinpath WORK_DIR raw)))
                   (PyPath.str WORK_DIR) = false ->
  let msg := "Error: Path '" ++ raw ++ "' resolves outside the working directory '"
             ++ PyPath.str WORK_DIR
             ++ "'. Only paths inside the working directory are allowed." in
  (forall c o, fs_write_file WORK_DIR now fs
                 {| write_path := raw; content := c; overwrite := o |} = (msg, fs)) /\
  fs_delete_file WORK_DIR now fs {| delete_path := raw |} = (msg, fs).
Proof.
  intros H msg. unfold fs_write_file, fs_delete_file, _safe_path.
  cbn [write_path delete_path]. rewrite H. split; reflexivity.
Qed.

(** C3. Writing with [overwrite=false] to a path that resolves, inside the
    root, to an existing file is refused with the already-exists reply, and
    the file system after the call is the one before it: the file keeps its
    content, nothing is written and no directory is made. *)
Theorem write_file_existing_refused (now : Z) (fs : node) (params : WriteFileInput)
        (target : path) (f : file) :
  _safe_path WORK_DIR (write_path params) = Ok target ->
  FS.lookup fs target = inr (File f) ->
  overwrite params = false ->
  fs_write_file WORK_DIR now fs params
  = ("Error: '" ++ write_path params
     ++ "' already exists. Set overwrite=true to replace it.", fs)
  /\ FS.lookup (snd (fs_write_file WORK_DIR now fs params)) target = inr (File f).
Proof.
  intros Hp Hf Ho.
  assert (E : fs_write_file WORK_DIR now fs params
              = ("Error: '" ++ write_path params
                 ++ "' already exists. Set overwrite=true to replace it.", fs)).
  { unfold fs_write_file. rewrite Hp. unfold FS.exists_. rewrite Hf, Ho. reflexivity. }
  split; [exact E|]. rewrite E. exact Hf.
Qed.

(** C8. Deleting a path that resolves inside the root and does not exist is
    refused with the does-not-exist reply; deleting one that is a directory,
    empty or not, is refused with the is-a-directory reply and the directory
    is still there with its entries; in both cases the file system is left
    as it was. *)
Theorem delete_file_refusals (now : Z) (fs : node) (params : DeleteFileInput)
        (target : path) :
  _safe_path WORK_DIR (delete_path params) = Ok target ->
  (FS.exists_ fs target = false ->
   fs_delete_file WORK_DIR now fs params
   = ("Error: '" ++ delete_path params ++ "' does not exist.", fs))
  /\
  (forall st es,
     FS.lookup fs target = inr (Dir st es) ->
     fs_delete_file WORK_DIR now fs params
     = ("Error: '" ++ delete_path params
        ++ "' is a directory. This tool only deletes files, not directories.", fs)
     /\ FS.lookup (snd (fs_delete_file WORK_DIR now fs params)) target
        = inr (Dir st es)).
Proof.
  intros Hp. split.
  - intros He. unfold fs_delete_file. rewrite Hp, He. reflexivity.
  - intros st es Hd.
    assert (E : fs_delete_file WORK_DIR now fs params
                = ("Error: '" ++ delete_path params
                   ++ "' is a directory. This tool only deletes files, not directories.",
                   fs)).
    { unfold fs_delete_file. rewrite Hp. unfold FS.exists_, FS.is_dir.
      rewrite Hd. reflexivity. }
    split; [exact E|]. rewrite E. exact Hd.
Qed.

(** C10. Writing with [overwrite=true] to a path that resolves to an
    existing directory passes the overwrite test, finds the parent in place
    and fails on the write itself with [IsADirectoryError]; the reply is the
    generic one, made of the name of the exception class and its message,
    and the file system is left as it was. *)
Theorem write_file_over_directory (now : Z) (fs : node) (params : WriteFileInput)
        (target : path) st es :
  _safe_path WORK_DIR (write_path params) = Ok target ->
  FS.lookup fs target = inr (Dir st es) ->
  overwrite params = true ->
  fs_write_file WORK_DIR now fs params
  = ("Error: " ++ type_name (OSError IsADirectoryError (PyPath.str target)) ++ ": "
     ++ exception_str (OSError IsADirectoryError (PyPath.str target)), fs)
  /\ type_name (OSError IsADirectoryError (PyPath.str target)) = "IsADirectoryError"
  /\ exception_str (OSError IsADirectoryError (PyPath.str target))
     = "[Errno 21] Is a directory: " ++ py_repr (PyPath.str target).
Proof.
  intros Hp Hd Ho. split; [|split; reflexivity].
  unfold fs_write_file. rewrite Hp, Ho, andb_false_r.
  rewrite (mkdir_existing now fs _ (lookup_dir_parent _ _ _ _ Hd)).
  unfold FS.write_text. rewrite Hd. reflexivity.
Qed.

(** C4. Reading a readable file inside the root with [max_lines] set to
    [n]: when the file has more than [n] lines the reply is the first [n]
    lines joined with line breaks, then the note that [n] of the full count
    of lines are shown, then the metadata line; otherwise it is the whole
    text followed directly by the metadata line, with no note. *)
Theorem read_file_truncation (fs : node) (params : ReadFileInput)
        (target : path) (f : file) (n : nat) :
  ReadFileInput_valid params ->
  _safe_path WORK_DIR (read_path params) = Ok target ->
  FS.lookup fs target = inr (File f) ->
  f_readable f = true ->
  max_lines params = Some n ->
  let text := FS.universal_newlines (f_text f) in
  let lines := PyStr.splitlines text in
  let total := List.length lines in
  fs_read_file WORK_DIR fs params
  = if Nat.ltb n total then
      PyStr.join NL (firstn n lines)
      ++ (NL ++ NL ++ "[Showing " ++ PyStr.of_nat n ++ " of " ++ PyStr.of_nat total
          ++ " lines. Set max_lines higher to see more.]")
      ++ read_meta (read_path params) (f_stat f)
    else text ++ read_meta (read_path params) (f_stat f).
Proof.
  intros [_ Hv] Hp Hf Hr Hn text lines total.
  rewrite Hn in Hv.
  unfold fs_read_file. rewrite Hp. cbn [bind].
  unfold FS.is_dir, FS.read_text, FS.stat. rewrite Hf, Hr. cbn [bind].
  unfold read_body. rewrite Hn.
  fold text. fold lines. fold total.
  destruct n as [|n]; [lia|]. cbn [Nat.eqb negb andb].
  destruct (Nat.ltb (S n) total); reflexivity.
Qed.

(** C9, as amended.  The confirmation of a successful [fs_write_file]
    reports the number of LF characters of the content plus one, and the
    [line_count] of [fs_file_info], when it is a number, is the number of LF
    characters of the text read plus one; so the empty text counts as one
    line.  For a text that ends in LF and in which LF is the only line
    boundary, this count is one more than the number of lines [fs_read_file]
    gets from [splitlines]. *)
Theorem line_count_is_newlines_plus_one :
  (forall now fs params,
     let r := fst (fs_write_file WORK_DIR now fs params) in
     PyStr.startswith r "Error: " = true \/
     r = "✓ Written " ++ PyStr.of_nat_commas (String.length (content params))
         ++ " bytes to '" ++ write_path params ++ "'." ++ NL
         ++ "Lines: " ++ PyStr.of_nat (PyStr.count PyStr.LF (content params) + 1))
  /\
  (forall fs raw r k,
     fs_file_info WORK_DIR fs raw = Json r ->
     line_count r = Some (Some k) ->
     exists target text,
       _safe_path WORK_DIR raw = Ok target /\
       FS.read_text fs target = Ok text /\
       k = PyStr.count PyStr.LF text + 1)
  /\
  PyStr.count PyStr.LF "" + 1 = 1
  /\
  (forall text,
     PyStr.ends_with text NL = true ->
     PyStr.other_break text = false ->
     PyStr.count PyStr.LF text + 1 = List.length (PyStr.splitlines text) + 1).
Proof.
  repeat split.
  - intros now fs params r. subst r. unfold fs_write_file.
    destruct (_safe_path WORK_DIR (write_path params)) as [target|e];
      [|left; apply handle_error_prefix].
    destruct (FS.exists_ fs target && negb (overwrite params)); [left; reflexivity|].
    destruct (FS.mkdir now fs (PyPath.parent target)) as [fs1|e];
      [|left; apply handle_error_prefix].
    destruct (FS.write_text now fs1 target (content params)) as [fs2|e];
      [|left; apply handle_error_prefix].
    right. reflexivity.
  - intros fs raw r k H Hk. unfold fs_file_info in H.
    destruct (_safe_path WORK_DIR raw) as [target|e]; [|discriminate].
    cbn [bind] in H.
    destruct (_file_info WORK_DIR fs target) as [i|e]; [|discriminate].
    cbn [bind] in H.
    destruct (FS.is_file fs target).
    + injection H as <-. cbn [line_count] in Hk.
      destruct (FS.read_text fs target) as [text|e] eqn:Er; [|discriminate].
      injection Hk as <-. exists target, text. repeat split; auto.
    + injection H as <-. discriminate.
  - intros text He Ho. pose proof (splitlines_length_lf text Ho) as L.
    unfold NL in He. rewrite He in L.
    destruct text as [|c t]; [discriminate|]. cbn [String.eqb negb b2n] in L. lia.
Qed.

(** The entries of a listing that was made: the sorted, visible children. *)
Lemma list_directory_reply_order (fs : node) (params : ListDirInput) (r : ListDirResult) :
  fs_list_directory WORK_DIR fs params = Json r ->
  exists target names items,
    _safe_path WORK_DIR (list_path params) = Ok target /\
    FS.listdir fs target = Ok names /\
    mapM (_file_info WORK_DIR fs) items = Ok (entries r) /\
    Permutation items (visible_children target names (show_hidden params)) /\
    StronglySorted (list_order fs) items /\
    forall k,
      filter (fun p => key_eqb (list_key fs p) k) items
      = filter (fun p => key_eqb (list_key fs p) k)
               (visible_children target names (show_hidden params)).
Proof.
  unfold fs_list_directory. intros H.
  destruct (_safe_path WORK_DIR (list_path params)) as [target|e] eqn:Ep; [|discriminate].
  cbn [bind] in H.
  destruct (negb (FS.is_dir fs target)); [discriminate|].
  unfold list_items in H.
  destruct (FS.listdir fs target) as [names|e] eqn:El; [|discriminate].
  cbn [bind] in H.
  match type of H with
  | context [mapM _ ?l] => set (items := l) in *
  end.
  destruct (mapM (_file_info WORK_DIR fs) items) as [es|e] eqn:Em; [|discriminate].
  cbn [bind] in H. injection H as <-.
  exists target, names, items. cbn [entries].
  repeat split; auto; subst items; unfold visible_children.
  - apply filter_perm.
    apply (sorted_perm (list_key fs) key_le).
  - apply filter_strongly_sorted.
    eapply strongly_sorted_impl;
      [|apply (sorted_ordered (list_key fs) key_le key_le_total key_le_trans)].
    intros p q Hpq. cbv beta in Hpq. apply key_le_spec in Hpq. exact Hpq.
  - intros k. rewrite filter_comm.
    rewrite (sorted_stable (list_key fs) key_le key_eqb key_le_total key_eqb_spec).
    apply filter_comm.
Qed.

(** C5. A search whose [max_results] is within its bounds reports the
    first [max_results] matching lines of the files found, taken in
    ascending order of path and, within a file, in the order of the lines:
    so it never reports more than [max_results] matches, and [truncated] is
    true exactly when it reports [max_results] of them. *)
Theorem grep_cap_and_order (fs : node) (params : GrepInput) (r : GrepResult) :
  GrepInput_valid params ->
  fs_grep WORK_DIR fs params = Json r ->
  List.length (results r) <= max_results params /\
  (truncated r = true <-> List.length (results r) = max_results params) /\
  matches_found r = List.length (results r) /\
  exists root found,
    _safe_path WORK_DIR (grep_directory params) = Ok root /\
    Glob.rglob fs root (file_pattern params) = Ok found /\
    StronglySorted (fun p q => PyPath.leb p q = true) (sorted PyPath.leb found) /\
    Forall2 (reports WORK_DIR)
            (firstn (max_results params)
                    (all_hits fs params (sorted PyPath.leb found)))
            (results r).
Proof.
  intros [_ Hm] H. unfold fs_grep in H.
  destruct (_safe_path WORK_DIR (grep_directory params)) as [root|e] eqn:Ep; [|discriminate].
  cbn [bind] in H.
  destruct (Glob.rglob fs root (file_pattern params)) as [found|e] eqn:Eg; [|discriminate].
  cbn [bind] in H.
  destruct (scan_files WORK_DIR fs params (sorted PyPath.leb found) [] 0)
    as [out|e] eqn:Es; [|discriminate].
  cbn [bind] in H. injection H as <-. cbn [results truncated matches_found].
  assert (F : Forall2 (reports WORK_DIR)
                      (firstn (max_results params)
                              (all_hits fs params (sorted PyPath.leb found)))
                      (fst out)).
  { apply (scan_files_hits WORK_DIR fs params _ [] [] 0 out); [constructor| |exact Es].
    cbn. lia. }
  assert (Len : List.length (fst out) <= max_results params).
  { rewrite <- (Forall2_length F). apply firstn_le_length. }
  repeat split.
  - exact Len.
  - intros T. apply Nat.leb_le in T. lia.
  - intros E. apply Nat.leb_le. lia.
  - exists root, found. auto using sorted_paths_ascending.
Qed.

(** C6, as amended.  [fs_search_files] reports plain files only, never a
    directory, whatever the pattern and the flag.  With [recursive=false]
    and a pattern of one segment (no [/]) other than [**], every file it
    reports is an entry of the directory itself.  A pattern with several
    segments or with a [**] segment reaches below the directory even when
    [recursive] is false. *)
Theorem search_files_plain_and_direct (fs : node) (params : SearchFilesInput)
        (r : SearchResult) :
  fs_search_files WORK_DIR fs params = Json r ->
  exists root paths,
    _safe_path WORK_DIR (search_directory params) = Ok root /\
    Forall2 (fun p m => _file_info WORK_DIR fs p = Ok m) paths (matches r) /\
    Forall (fun p => FS.is_file fs p = true) paths /\
    Forall (fun m => is_dir m = false) (matches r) /\
    (recursive params = false ->
     PyStr.contains "/" (pattern params) = false ->
     pattern params <> "**" ->
     Forall (fun p => exists name,
                 p = (root ++ [name])%list /\
                 In name (map fst (Glob.scandir fs root))) paths).
Proof.
  unfold fs_search_files. intros H.
  destruct (_safe_path WORK_DIR (search_directory params)) as [root|e] eqn:Ep; [|discriminate].
  cbn [bind] in H.
  destruct (negb (FS.is_dir fs root)); [discriminate|].
  destruct (search_paths fs root params) as [paths|e] eqn:Es; [|discriminate].
  cbn [bind] in H.
  destruct (mapM (_file_info WORK_DIR fs) paths) as [ms|e] eqn:Em; [|discriminate].
  cbn [bind] in H. injection H as <-. cbn [matches].
  apply mapM_Forall2 in Em.
  unfold search_paths in Es.
  assert (Hfile : Forall (fun p => FS.is_file fs p = true) paths).
  { destruct (if recursive params then _ else _) as [found|e]; [|discriminate].
    cbn [bind] in Es. injection Es as <-.
    apply Forall_forall. intros p Hp. apply filter_In in Hp. tauto. }
  exists root, paths. repeat split; auto.
  - clear Es. induction Em as [|p m ps ms E _ IH]; constructor.
    + inversion Hfile; subst.
      rewrite (file_info_is_dir _ _ _ _ E). apply is_file_not_dir. assumption.
    + inversion Hfile; subst. auto.
  - intros Hr Hs Hss. rewrite Hr in Es.
    destruct (Glob.glob fs root (pattern params)) as [found|e] eqn:Eg; [|discriminate].
    cbn [bind] in Es. injection Es as <-.
    apply Forall_forall. intros p Hp. apply filter_In in Hp as [Hp Hf].
    apply (glob_plain_direct fs root (pattern params) found p Hs Hss Eg); [|exact Hf].
    eapply Permutation_in; [|exact Hp].
    apply (sorted_perm (fun q : path => q) PyPath.leb).
Qed.

(** C7. For a directory inside the root, a listing is made and holds the
    descriptors of the visible direct children of the directory in the
    order of a stable sort on two keys: a directory comes before a plain
    file, within one kind the lower-cased names ascend, and children whose
    two keys are equal stay in the order in which the directory enumerates
    them. *)
Theorem list_directory_order (fs : node) (params : ListDirInput)
        (target rel : path) st es :
  _safe_path WORK_DIR (list_path params) = Ok target ->
  FS.lookup fs target = inr (Dir st es) ->
  PyPath.strip_prefix WORK_DIR target = Some rel ->
  Forall (fun n => n <> "..") (map fst es) ->
  exists r items,
    fs_list_directory WORK_DIR fs params = Json r /\
    mapM (_file_info WORK_DIR fs) items = Ok (entries r) /\
    Permutation items (visible_children target (map fst es) (show_hidden params)) /\
    StronglySorted (list_order fs) items /\
    forall k,
      filter (fun p => key_eqb (list_key fs p) k) items
      = filter (fun p => key_eqb (list_key fs p) k)
               (visible_children target (map fst es) (show_hidden params)).
Proof.
  intros Hp Hd Hrel Hnames.
  assert (Hl : FS.listdir fs target = Ok (map fst es)).
  { unfold FS.listdir. rewrite Hd. reflexivity. }
  assert (Hr : exists r, fs_list_directory WORK_DIR fs params = Json r).
  { unfold fs_list_directory. rewrite Hp. cbn [bind].
    unfold FS.is_dir. rewrite Hd. cbn [negb].
    unfold list_items. rewrite Hl. cbn [bind].
    match goal with
    | |- context [mapM _ ?l] => set (items := l)
    end.
    destruct (mapM_total (_file_info WORK_DIR fs) items) as [infos E].
    - apply Forall_forall. intros p Hin. subst items.
      apply filter_In in Hin as [Hin _].
      eapply Permutation_in in Hin;
        [|apply (sorted_perm (list_key fs) key_le)].
      apply in_map_iff in Hin as (n & <- & Hn).
      rewrite Forall_forall in Hnames. specialize (Hnames n Hn).
      destruct (lookup_child fs target st es n Hd) as (up & _ & E).
      apply String.eqb_neq in Hnames. rewrite Hnames in E.
      destruct (in_find_entry n es Hn) as [c Ec]. rewrite Ec in E.
      unfold _file_info, FS.stat, relative_to_WORK_DIR.
      rewrite E, (strip_prefix_app _ _ _ [n] Hrel). cbn [bind]. eauto.
    - rewrite E. cbn [bind]. eauto. }
  destruct Hr as [r Hr]. exists r.
  destruct (list_directory_reply_order fs params r Hr)
    as (target' & names & items & Hp' & Hl' & Hm & Hperm & Hs & Hst).
  rewrite Hp in Hp'. injection Hp' as <-.
  rewrite Hl in Hl'. injection Hl' as <-.
  exists items. auto.
Qed.

End Properties.

(** ** The prefix test on a sibling of the root *)

(** C1.  With the root [/data], the raw path [../data-secret/x] resolves to
    [/data-secret/x], which is not below [/data] segment by segment; the
    test of [_safe_path] compares the two strings, finds [/data] at the
    start of [/data-secret/x], and returns the path. *)
Theorem safe_path_admits_sibling :
  PyPath.resolve (PyPath.joinpath Sample.data "../data-secret/x") = ["data-secret"; "x"]
  /\ PyPath.strip_prefix Sample.data ["data-secret"; "x"] = None
  /\ PyStr.startswith (PyPath.str ["data-secret"; "x"]) (PyPath.str Sample.data) = true
  /\ _safe_path Sample.data "../data-secret/x" = Ok ["data-secret"; "x"].
Proof. repeat split. Qed.

(** C2.  With the root [/data], writing to [../data-secret/new.txt], a raw
    path with a [..] segment that resolves outside the root, is not refused:
    the reply is the confirmation and the file is made in [/data-secret]. *)
Theorem write_file_outside_root :
  let params := {| write_path := "../data-secret/new.txt";
                   content := "pwned"; overwrite := false |} in
  let out := fs_write_file (P := Sample.platform) Sample.data 9 Sample.data_fs params in
  PyPath.resolve (PyPath.joinpath Sample.data (write_path params))
  = ["data-secret"; "new.txt"]
  /\ PyPath.strip_prefix Sample.data ["data-secret"; "new.txt"] = None
  /\ fst out = "✓ Written 5 bytes to '../data-secret/new.txt'." ++ NL ++ "Lines: 1"
  /\ FS.exists_ Sample.data_fs ["data-secret"; "new.txt"] = false
  /\ FS.read_text (snd out) ["data-secret"; "new.txt"] = Ok "pwned".
Proof. repeat split. Qed.

(** ** The claims at concrete inputs *)

Lemma write_file_existing_refused_witness :
  let params := {| write_path := "x"; content := "new"; overwrite := false |} in
  fs_write_file (P := Sample.platform) Sample.data 9 Sample.data_fs params
  = ("Error: 'x' already exists. Set overwrite=true to replace it.", Sample.data_fs)
  /\ FS.lookup (snd (fs_write_file (P := Sample.platform) Sample.data 9
                                   Sample.data_fs params)) ["data"; "x"]
     = inr (Sample.plain "mine" 1).
Proof.
  apply (write_file_existing_refused (P := Sample.platform) Sample.data 9%Z
           Sample.data_fs
           {| write_path := "x"; content := "new"; overwrite := false |}
           ["data"; "x"]); reflexivity.
Defined.

Lemma delete_file_refusals_witness :
  fs_delete_file (P := Sample.platform) Sample.work 9 Sample.work_fs
                 {| delete_path := "nope" |}
  = ("Error: 'nope' does not exist.", Sample.work_fs)
  /\ fs_delete_file (P := Sample.platform) Sample.work 9 Sample.work_fs
                    {| delete_path := "Docs" |}
     = ("Error: 'Docs' is a directory. This tool only deletes files, not directories.",
        Sample.work_fs).
Proof.
  split.
  - apply (proj1 (delete_file_refusals (P := Sample.platform) Sample.work 9%Z
                    Sample.work_fs {| delete_path := "nope" |} ["work"; "nope"]
                    eq_refl)).
    reflexivity.
  - apply (proj2 (delete_file_refusals (P := Sample.platform) Sample.work 9%Z
                    Sample.work_fs {| delete_path := "Docs" |} ["work"; "Docs"]
                    eq_refl) (mk_stat 64 0) []).
    reflexivity.
Defined.

Lemma write_file_over_directory_witness :
  fs_write_file (P := Sample.platform) Sample.work 9 Sample.work_fs
                {| write_path := "Docs"; content := "text"; overwrite := true |}
  = ("Error: IsADirectoryError: [Errno 21] Is a directory: '/work/Docs'",
     Sample.work_fs).
Proof.
  apply (write_file_over_directory (P := Sample.platform) Sample.work 9%Z
           Sample.work_fs
           {| write_path := "Docs"; content := "text"; overwrite := true |}
           ["work"; "Docs"] (mk_stat 64 0) []); reflexivity.
Defined.

Lemma read_file_truncation_witness :
  fs_read_file (P := Sample.platform) Sample.work Sample.work_fs
               {| read_path := "a.txt"; max_lines := Some 1 |}
  = "hello" ++ NL ++ NL ++ "[Showing 1 of 2 lines. Set max_lines higher to see more.]"
    ++ NL ++ NL ++ "---" ++ NL ++ "File: a.txt | 11 bytes | Modified: 3".
Proof.
  apply (read_file_truncation (P := Sample.platform) Sample.work Sample.work_fs
           {| read_path := "a.txt"; max_lines := Some 1 |}
           ["work"; "a.txt"]
           (mk_file ("hello" ++ Sample.LFs ++ "world") (mk_stat 11 3) true) 1).
  - split; cbn; lia.
  - reflexivity.
  - reflexivity.
  - reflexivity.
  - reflexivity.
Defined.

Lemma grep_cap_and_order_witness :
  exists r,
    fs_grep (P := Sample.platform) Sample.work Sample.work_fs
            {| text := "TODO"; grep_directory := "."; file_pattern := "*.*";
               case_sensitive := false; max_results := 2 |} = Json r
    /\ List.length (results r) <= 2
    /\ (truncated r = true <-> List.length (results r) = 2)
    /\ map match_file (results r) = ["A.md"; "A.md"]
    /\ map match_line (results r) = [1; 3].
Proof.
  eexists. split; [reflexivity|].
  destruct (grep_cap_and_order (P := Sample.platform) Sample.work Sample.work_fs
              {| text := "TODO"; grep_directory := "."; file_pattern := "*.*";
                 case_sensitive := false; max_results := 2 |} _
              ltac:(split; cbn; lia) eq_refl) as (Hcap & Htrunc & _).
  split; [exact Hcap|]. split; [exact Htrunc|]. split; reflexivity.
Defined.

(** C6, the claim as stated.  With [recursive=false], the pattern
    [**/*.txt] reports [sub/b.txt], which is not a direct child of the
    directory searched. *)
Lemma search_files_glob_star_star_recurses :
  exists r,
    fs_search_files (P := Sample.platform) Sample.work Sample.work_fs
                    {| pattern := "**/*.txt"; search_directory := ".";
                       recursive := false |} = Json r
    /\ map info_path (matches r) = ["a.txt"; "b.txt"; "sub/b.txt"].
Proof. eexists. split; reflexivity. Qed.

Lemma search_files_plain_and_direct_witness :
  exists r root paths,
    fs_search_files (P := Sample.platform) Sample.work Sample.work_fs
                    {| pattern := "*.txt"; search_directory := ".";
                       recursive := false |} = Json r
    /\ map info_path (matches r) = ["a.txt"; "b.txt"]
    /\ _safe_path Sample.work "." = Ok root
    /\ Forall2 (fun p m => _file_info (P := Sample.platform) Sample.work
                                      Sample.work_fs p = Ok m) paths (matches r)
    /\ Forall (fun m => is_dir m = false) (matches r)
    /\ Forall (fun p => exists name,
                   p = (root ++ [name])%list /\
                   In name (map fst (Glob.scandir Sample.work_fs root))) paths.
Proof.
  eexists.
  destruct (search_files_plain_and_direct (P := Sample.platform) Sample.work
              Sample.work_fs
              {| pattern := "*.txt"; search_directory := "."; recursive := false |}
              _ eq_refl) as (root & paths & Hroot & Hinfo & _ & Hplain & Hdirect).
  exists root, paths.
  split; [reflexivity|]. split; [reflexivity|].
  split; [exact Hroot|]. split; [exact Hinfo|]. split; [exact Hplain|].
  apply Hdirect; [reflexivity|reflexivity|discriminate].
Defined.

Lemma list_directory_order_witness :
  exists r items,
    fs_list_directory (P := Sample.platform) Sample.work Sample.work_fs
                      {| list_path := "."; show_hidden := false |} = Json r
    /\ map info_name (entries r) = ["Docs"; "sub"; "A.md"; "a.txt"; "b.txt"]
    /\ StronglySorted (list_order (P := Sample.platform) Sample.work_fs) items
    /\ mapM (_file_info (P := Sample.platform) Sample.work Sample.work_fs) items
       = Ok (entries r).
Proof.
  destruct (list_directory_order (P := Sample.platform) Sample.work Sample.work_fs
              {| list_path := "."; show_hidden := false |}
              ["work"] [] (mk_stat 64 0)
              [("b.txt", Sample.plain "beta" 5);
               ("sub", Sample.folder
                         [("b.txt", Sample.plain ("todo item" ++ Sample.LFs ++ "done") 7)]);
               ("a.txt", Sample.plain ("hello" ++ Sample.LFs ++ "world") 3);
               (".env", Sample.plain "KEY=1" 4);
               ("A.md", Sample.plain ("TODO one" ++ Sample.LFs ++ "x" ++ Sample.LFs
                                      ++ "todo two  ") 6);
               ("Docs", Sample.folder [])]
              eq_refl eq_refl eq_refl
              ltac:(repeat constructor; discriminate))
    as (r & items & Hr & Hm & _ & Hs & _).
  exists r, items. split; [exact Hr|]. split; [|split; [exact Hs|exact Hm]].
  assert (E : Json r = fs_list_directory (P := Sample.platform) Sample.work Sample.work_fs
                         {| list_path := "."; show_hidden := false |})
    by (symmetry; exact Hr).
  vm_compute in E. injection E as ->. reflexivity.
Defined.

(** C9, the claim as stated.  The text [a], form feed, [b], LF ends in LF;
    [splitlines] makes two lines of it, and the count of LF plus one is two
    as well, not three. *)
Lemma line_count_form_feed :
  let t := "a" ++ Sample.FFs ++ "b" ++ NL in
  PyStr.ends_with t NL = true
  /\ count_lines t = 2
  /\ List.length (PyStr.splitlines t) = 2
  /\ count_lines t <> List.length (PyStr.splitlines t) + 1.
Proof. repeat split. cbn. discriminate. Qed.

Lemma line_count_is_newlines_plus_one_witness :
  PyStr.count PyStr.LF ("a" ++ NL ++ "b" ++ NL) + 1
  = List.length (PyStr.splitlines ("a" ++ NL ++ "b" ++ NL)) + 1.
Proof.
  apply (proj2 (proj2 (proj2 (line_count_is_newlines_plus_one
                                (P := Sample.platform) Sample.work))));
    reflexivity.
Defined.

(** * Further properties *)

(** ** Walks without [..] *)

Lemma resolve_from_no_dotdot (segs : path) : forall acc,
  no_dotdot acc -> no_dotdot (PyPath.resolve_from acc segs).
Proof.
  unfold no_dotdot. induction segs as [|s segs IH]; intros acc H; cbn.
  - apply Forall_rev, H.
  - destruct (String.eqb_spec s "..").
    + apply IH. destruct acc; [constructor|]. inversion H; assumption.
    + apply IH. constructor; assumption.
Qed.

Lemma safe_path_no_dotdot (WORK_DIR : path) (raw : string) (target : path) :
  _safe_path WORK_DIR raw = Ok target -> no_dotdot target.
Proof.
  unfold _safe_path. destruct (negb _); [discriminate|].
  intros [= <-]. apply resolve_from_no_dotdot. constructor.
Qed.

Lemma find_entry_map_entry (name : string) (g : node -> node) (es : list (string * node)) :
  FS.find_entry name (FS.map_entry name g es) = option_map g (FS.find_entry name es).
Proof.
  induction es as [|[k n] es IH]; [reflexivity|]. cbn.
  destruct (String.eqb k name) eqn:E; cbn; rewrite E; [reflexivity|exact IH].
Qed.

Lemma find_entry_snoc_new (name : string) (c : node) (es : list (string * node)) :
  FS.find_entry name es = None ->
  FS.find_entry name (es ++ [(name, c)]) = Some c.
Proof.
  induction es as [|[k n] es IH]; cbn.
  - rewrite String.eqb_refl. reflexivity.
  - destruct (String.eqb k name); [discriminate|exact IH].
Qed.

(** The node at [p] after [update_at p g]. *)
Lemma walk_update_at (p : path) (g : node -> node) : forall anc anc' cur n,
  no_dotdot p ->
  FS.walk anc cur p = inr n ->
  FS.walk anc' (FS.update_at p g cur) p = inr (g n).
Proof.
  induction p as [|s p IH]; intros anc anc' cur n Hp H.
  - cbn in *. injection H as <-. reflexivity.
  - inversion Hp as [|? ? Hs Hp']; subst.
    cbn [FS.walk FS.update_at] in *.
    destruct cur as [f|st es]; [discriminate|].
    apply String.eqb_neq in Hs. rewrite Hs in *.
    rewrite find_entry_map_entry.
    destruct (FS.find_entry s es) as [c|]; [|discriminate].
    cbn [option_map]. eapply IH; eassumption.
Qed.

Lemma lookup_update_at (fs : node) (p : path) (g : node -> node) (n : node) :
  no_dotdot p ->
  FS.lookup fs p = inr n ->
  FS.lookup (FS.update_at p g fs) p = inr (g n).
Proof. intros Hp H. eapply walk_update_at; eassumption. Qed.

Lemma no_dotdot_parent (p : path) : no_dotdot p -> no_dotdot (PyPath.parent p).
Proof.
  unfold no_dotdot, PyPath.parent. intros H.
  destruct p as [|a p'] using rev_ind; [exact H|].
  rewrite removelast_last. apply Forall_app in H. tauto.
Qed.

Lemma parent_name (p : path) : p <> [] -> p = (PyPath.parent p ++ [PyPath.name p])%list.
Proof. intros H. apply app_removelast_last, H. Qed.

Lemma no_dotdot_name (p : path) : no_dotdot p -> p <> [] -> PyPath.name p <> "..".
Proof.
  intros H N. rewrite (parent_name p N) in H. apply Forall_app in H as [_ H].
  inversion H. assumption.
Qed.

Lemma lookup_missing_nonroot (fs : node) (p : path) e :
  FS.lookup fs p = inl e -> p <> [].
Proof. intros H ->. discriminate. Qed.

(** A path that is missing below a directory that is there: its name is
    not an entry of that directory. *)
Lemma missing_child_not_entry (fs : node) (p : path) e st es :
  no_dotdot p ->
  FS.lookup fs p = inl e ->
  FS.lookup fs (PyPath.parent p) = inr (Dir st es) ->
  FS.find_entry (PyPath.name p) es = None.
Proof.
  intros Hp He Hd. pose proof (lookup_missing_nonroot _ _ _ He) as N.
  destruct (lookup_child fs _ st es (PyPath.name p) Hd) as (up & _ & E).
  rewrite <- (parent_name p N) in E. rewrite He in E.
  pose proof (no_dotdot_name p Hp N) as Hn. apply String.eqb_neq in Hn. rewrite Hn in E.
  destruct (FS.find_entry (PyPath.name p) es); [discriminate|reflexivity].
Qed.

(** The node at [p] once [p]'s parent has gained the entry [child] under
    [p]'s name. *)
Lemma lookup_added_child (now : Z) (fs : node) (p : path) (child : node) e st es :
  no_dotdot p ->
  FS.lookup fs p = inl e ->
  FS.lookup fs (PyPath.parent p) = inr (Dir st es) ->
  FS.lookup (FS.update_at (PyPath.parent p)
                          (FS.add_entry now (PyPath.name p) child) fs) p
  = inr child.
Proof.
  intros Hp He Hd. pose proof (lookup_missing_nonroot _ _ _ He) as N.
  pose proof (lookup_update_at fs _ (FS.add_entry now (PyPath.name p) child) _
                (no_dotdot_parent p Hp) Hd) as U.
  cbn [FS.add_entry] in U.
  destruct (lookup_child _ _ _ _ (PyPath.name p) U) as (up & _ & E).
  rewrite <- (parent_name p N) in E. rewrite E.
  pose proof (no_dotdot_name p Hp N) as Hn. apply String.eqb_neq in Hn. rewrite Hn.
  rewrite (find_entry_snoc_new _ _ _ (missing_child_not_entry _ _ _ _ _ Hp He Hd)).
  reflexivity.
Qed.

(** ** Making directories and writing *)

Section WriteFacts.
Context {P : Platform}.
Variable now : Z.

Lemma os_mkdir_ok (fs fs' : node) (p : path) :
  no_dotdot p ->
  FS.os_mkdir now fs p = Ok fs' ->
  (exists e, FS.lookup fs p = inl e) /\
  FS.lookup fs' p = inr (Dir (mk_stat new_dir_size now) []).
Proof.
  intros Hp H. unfold FS.os_mkdir in H.
  destruct (FS.lookup fs p) as [e|n] eqn:E; [|discriminate].
  destruct (FS.lookup fs (PyPath.parent p)) as [e'|[f|st es]] eqn:E'; try discriminate.
  injection H as <-. split; [eauto|].
  eapply lookup_added_child; eassumption.
Qed.

Lemma os_mkdir_not_found (fs : node) (p : path) (f : string) :
  FS.os_mkdir now fs p = Raise (OSError FileNotFoundError f) ->
  exists e, FS.lookup fs p = inl e.
Proof.
  unfold FS.os_mkdir. destruct (FS.lookup fs p) as [e|n]; [eauto|discriminate].
Qed.

(** [mkdir(parents=True, exist_ok=True)] that returns has either found
    the directory in place and changed nothing, or made it, empty, where
    nothing was. *)
Lemma mkdir_parents_result (rp : list string) : forall fs fs1,
  no_dotdot (rev rp) ->
  FS.mkdir_parents now fs rp = Ok fs1 ->
  (fs1 = fs /\ FS.is_dir fs (rev rp) = true) \/
  ((exists e, FS.lookup fs (rev rp) = inl e) /\
   FS.lookup fs1 (rev rp) = inr (Dir (mk_stat new_dir_size now) [])).
Proof.
  induction rp as [|a rp IH]; intros fs fs1 Hp H.
  - cbn [FS.mkdir_parents] in H.
    destruct (FS.os_mkdir now fs (rev [])) as [fs'|e] eqn:E.
    + injection H as <-. right. apply os_mkdir_ok; assumption.
    + destruct e as [[] f|m|m|m]; try discriminate;
        (destruct (FS.is_dir fs (rev [])) eqn:D; [|discriminate]);
        injection H as <-; left; auto.
  - cbn [FS.mkdir_parents] in H.
    destruct (FS.os_mkdir now fs (rev (a :: rp))) as [fs'|e] eqn:E.
    + injection H as <-. right. apply os_mkdir_ok; assumption.
    + assert (Hp' : no_dotdot (rev rp)).
      { cbn [rev] in Hp. apply Forall_app in Hp. tauto. }
      destruct e as [[] f|m|m|m];
        try (destruct (FS.is_dir fs (rev (a :: rp))) eqn:D; [|discriminate];
             injection H as <-; left; auto).
      destruct (FS.mkdir_parents now fs rp) as [fs0|e0] eqn:E0; [|discriminate].
      cbn [bind] in H. unfold FS.mkdir_exist_ok in H.
      destruct (FS.os_mkdir now fs0 (rev (a :: rp))) as [fs'|e] eqn:E1.
      * injection H as <-. right. split; [eapply os_mkdir_not_found; eassumption|].
        apply (os_mkdir_ok fs0 fs' _ Hp E1).
      * exfalso.
        destruct (IH fs fs0 Hp' E0) as [[-> _]|[_ Hfresh]].
        -- rewrite E in E1. injection E1 as <-. discriminate.
        -- assert (Ha : a <> "..").
           { cbn [rev] in Hp. apply Forall_app in Hp as [_ Hp]. inversion Hp. assumption. }
           apply String.eqb_neq in Ha.
           unfold FS.os_mkdir in E1. cbn [rev] in E1.
           destruct (lookup_child fs0 _ _ _ a Hfresh) as (up & _ & Ec).
           rewrite Ha in Ec. cbn [FS.find_entry] in Ec. rewrite Ec in E1.
           unfold PyPath.parent in E1. rewrite removelast_last, Hfresh in E1.
           discriminate.
Qed.

Lemma mkdir_result (fs fs1 : node) (p : path) :
  no_dotdot p ->
  FS.mkdir now fs p = Ok fs1 ->
  (fs1 = fs /\ FS.is_dir fs p = true) \/
  ((exists e, FS.lookup fs p = inl e) /\
   FS.lookup fs1 p = inr (Dir (mk_stat new_dir_size now) [])).
Proof.
  intros Hp H. unfold FS.mkdir in H.
  rewrite <- (rev_involutive p) in Hp.
  destruct (mkdir_parents_result _ _ _ Hp H) as [R|R]; rewrite rev_involutive in R; auto.
Qed.

(** The file [write_text] leaves at [p]. *)
Lemma write_text_ok (fs fs2 : node) (p : path) (c : string) :
  no_dotdot p ->
  FS.write_text now fs p c = Ok fs2 ->
  FS.lookup fs2 p
  = inr (File (mk_file c (mk_stat (String.length c) now)
                       match FS.lookup fs p with
                       | inr (File f) => f_readable f
                       | _ => true
                       end)).
Proof.
  intros Hp H. unfold FS.write_text in H.
  destruct (FS.lookup fs p) as [e|[f|st es]] eqn:E; try discriminate.
  - destruct (FS.lookup fs (PyPath.parent p)) as [e'|[f|st es]] eqn:E'; try discriminate.
    injection H as <-. eapply lookup_added_child; eassumption.
  - injection H as <-.
    match goal with
    | |- FS.lookup (FS.update_at _ ?g _) _ = _ => exact (lookup_update_at fs p g _ Hp E)
    end.
Qed.


End WriteFacts.

Section WriteTool.
Context {P : Platform}.
Variable WORK_DIR : path.

(** A call of [fs_write_file] whose reply is no error went through
    [mkdir] and [write_text]. *)
Lemma write_file_success (now : Z) (fs : node) (params : WriteFileInput)
      (target : path) (reply : string) (fs2 : node) :
  _safe_path WORK_DIR (write_path params) = Ok target ->
  fs_write_file WORK_DIR now fs params = (reply, fs2) ->
  PyStr.startswith reply "Error: " = false ->
  exists fs1,
    FS.mkdir now fs (PyPath.parent target) = Ok fs1 /\
    FS.write_text now fs1 target (content params) = Ok fs2.
Proof.
  intros Hp H Hr. unfold fs_write_file in H. rewrite Hp in H.
  destruct (FS.exists_ fs target && negb (overwrite params)).
  { injection H as <- <-. discriminate. }
  destruct (FS.mkdir now fs (PyPath.parent target)) as [fs1|e] eqn:Hm.
  2:{ injection H as <- <-. rewrite handle_error_prefix in Hr. discriminate. }
  destruct (FS.write_text now fs1 target (content params)) as [fs2'|e] eqn:Hw.
  2:{ injection H as <- <-. rewrite handle_error_prefix in Hr. discriminate. }
  injection H as <- <-. eauto.
Qed.

(** X1. After a call of [fs_write_file] that replies with the confirmation,
    the path is a plain file of the size of the content, dated at the call,
    in a directory; and reading it back, when the file was new or readable
    before, gives the content with CR LF and CR turned into LF, followed by
    the metadata line. *)
Theorem write_file_then_read (now : Z) (fs : node) (params : WriteFileInput)
        (target : path) (reply : string) (fs2 : node) :
  _safe_path WORK_DIR (write_path params) = Ok target ->
  fs_write_file WORK_DIR now fs params = (reply, fs2) ->
  PyStr.startswith reply "Error: " = false ->
  FS.is_file fs2 target = true /\
  FS.stat fs2 target = Ok (mk_stat (String.length (content params)) now) /\
  FS.is_dir fs2 (PyPath.parent target) = true /\
  ((forall f, FS.lookup fs target = inr (File f) -> f_readable f = true) ->
   fs_read_file WORK_DIR fs2 {| read_path := write_path params; max_lines := None |}
   = FS.universal_newlines (content params)
     ++ read_meta (write_path params) (mk_stat (String.length (content params)) now)).
Proof.
  intros Hp H Hr.
  pose proof (safe_path_no_dotdot _ _ _ Hp) as Hn.
  destruct (write_file_success now fs params target reply fs2 Hp H Hr) as (fs1 & Hm & Hw).
  pose proof (write_text_ok now fs1 fs2 target _ Hn Hw) as L.
  assert (Hpar : FS.is_dir fs2 (PyPath.parent target) = true).
  { destruct target as [|a t'] using rev_ind.
    - exfalso. unfold FS.write_text in Hw. cbn [FS.lookup FS.walk] in Hw.
      destruct (mkdir_result now fs fs1 _ (no_dotdot_parent _ Hn) Hm) as [[-> D]|[_ D]].
      + unfold FS.is_dir in D. cbn in D. destruct fs; discriminate.
      + cbn in D. injection D as ->. discriminate.
    - unfold PyPath.parent. rewrite removelast_last.
      destruct (walk_snoc_dir _ _ _ _ _ L) as (st & es & E).
      unfold FS.is_dir, FS.lookup. rewrite E. reflexivity. }
  repeat split.
  - unfold FS.is_file. rewrite L. reflexivity.
  - unfold FS.stat. rewrite L. reflexivity.
  - exact Hpar.
  - intros Hread.
    assert (R : match FS.lookup fs1 target with
                | inr (File f) => f_readable f
                | _ => true
                end = true).
    { destruct (mkdir_result now fs fs1 _ (no_dotdot_parent _ Hn) Hm) as [[-> _]|[_ D]].
      - destruct (FS.lookup fs target) as [e|[f|st es]] eqn:E; auto.
      - destruct (FS.lookup fs1 target) as [e|[f|st es]] eqn:E; auto.
        exfalso.
        assert (N : target <> []).
        { intros ->. cbn in E. cbn in D. congruence. }
        destruct (lookup_child fs1 _ _ _ (PyPath.name target) D) as (up & U & Ec).
        rewrite <- (parent_name _ N), E in Ec.
        pose proof (no_dotdot_name _ Hn N) as Hd. apply String.eqb_neq in Hd.
        rewrite Hd in Ec. discriminate. }
    rewrite R in L.
    unfold fs_read_file. cbn [read_path max_lines]. rewrite Hp. cbn [bind].
    unfold FS.is_dir, FS.read_text, FS.stat. rewrite L. cbn [f_readable f_text bind].
    reflexivity.
Qed.

(** X2. After a call of [fs_write_file] that replies with the confirmation,
    a further call on the same path without [overwrite] is refused with the
    already-exists reply, whatever the new content, and changes nothing. *)
Theorem write_file_then_write_refused (now : Z) (fs : node) (params : WriteFileInput)
        (target : path) (reply : string) (fs2 : node) :
  _safe_path WORK_DIR (write_path params) = Ok target ->
  fs_write_file WORK_DIR now fs params = (reply, fs2) ->
  PyStr.startswith reply "Error: " = false ->
  forall now' c2,
    fs_write_file WORK_DIR now' fs2
                  {| write_path := write_path params; content := c2; overwrite := false |}
    = ("Error: '" ++ write_path params
       ++ "' already exists. Set overwrite=true to replace it.", fs2).
Proof.
  intros Hp H Hr now' c2.
  pose proof (safe_path_no_dotdot _ _ _ Hp) as Hn.
  destruct (write_file_success now fs params target reply fs2 Hp H Hr) as (fs1 & Hm & Hw).
  pose proof (write_text_ok now fs1 fs2 target _ Hn Hw) as L.
  unfold fs_write_file. cbn [write_path overwrite]. rewrite Hp.
  unfold FS.exists_. rewrite L. reflexivity.
Qed.


End WriteTool.

(** ** What an update leaves alone *)

Lemma walk_ancestors_irrelevant (q : path) : forall anc anc' cur,
  no_dotdot q -> FS.walk anc cur q = FS.walk anc' cur q.
Proof.
  induction q as [|k q IH]; intros anc anc' cur H; [reflexivity|].
  inversion H as [|? ? Hk Hq]; subst. apply String.eqb_neq in Hk.
  cbn [FS.walk]. destruct cur as [f|st es]; [reflexivity|]. rewrite Hk.
  destruct (FS.find_entry k es); [|reflexivity]. apply IH, Hq.
Qed.

Lemma find_entry_map_entry_other (name k : string) (g : node -> node)
      (es : list (string * node)) :
  k <> name -> FS.find_entry k (FS.map_entry name g es) = FS.find_entry k es.
Proof.
  intros N. induction es as [|[k' n] es IH]; [reflexivity|]. cbn.
  destruct (String.eqb_spec k' name) as [->|]; cbn.
  - apply String.eqb_neq in N. rewrite String.eqb_sym in N. rewrite N. reflexivity.
  - destruct (String.eqb k' k); [reflexivity|exact IH].
Qed.

Lemma find_entry_app_some (k : string) (c : node) (es es' : list (string * node)) :
  FS.find_entry k es = Some c -> FS.find_entry k (es ++ es') = Some c.
Proof.
  induction es as [|[k' n] es IH]; cbn; [discriminate|].
  destruct (String.eqb k' k); auto.
Qed.

Lemma find_entry_drop_other (name k : string) (es : list (string * node)) :
  k <> name -> FS.find_entry k (FS.drop_entry name es) = FS.find_entry k es.
Proof.
  intros N. induction es as [|[k' n] es IH]; [reflexivity|]. cbn.
  destruct (String.eqb_spec k' name) as [->|]; cbn.
  - apply String.eqb_neq in N. rewrite String.eqb_sym in N. rewrite N. reflexivity.
  - destruct (String.eqb k' k); [reflexivity|exact IH].
Qed.

Lemma find_entry_drop_same (name : string) (es : list (string * node)) :
  NoDup (map fst es) -> FS.find_entry name (FS.drop_entry name es) = None.
Proof.
  induction es as [|[k n] es IH]; intros H; [reflexivity|]. cbn in *.
  inversion H as [|? ? Hin Hnd]; subst.
  destruct (String.eqb_spec k name) as [->|N].
  - destruct (FS.find_entry name es) as [c|] eqn:E; [|reflexivity].
    apply find_entry_in in E. contradiction.
  - cbn. apply String.eqb_neq in N. rewrite N. auto.
Qed.

(** A plain file found at [q] is still found there after [update_at p g],
    when [q] is not [p] and [g] keeps the entry through which [q] leaves
    the node at [p], should [q] pass there. *)
Lemma walk_update_at_frame (p : path) (g : node -> node) : forall q anc anc' cur f,
  no_dotdot q ->
  q <> p ->
  (forall k rest st es c,
      q = (p ++ k :: rest)%list ->
      FS.find_entry k es = Some c ->
      exists st' es', g (Dir st es) = Dir st' es' /\ FS.find_entry k es' = Some c) ->
  FS.walk anc cur q = inr (File f) ->
  FS.walk anc' (FS.update_at p g cur) q = inr (File f).
Proof.
  induction p as [|s p IH]; intros q anc anc' cur f Hq N Hg H.
  - destruct q as [|k rest]; [contradiction|].
    inversion Hq as [|? ? Hk Hrest]; subst. apply String.eqb_neq in Hk.
    cbn [FS.update_at]. cbn [FS.walk] in H.
    destruct cur as [f0|st es]; [discriminate|]. rewrite Hk in H.
    destruct (FS.find_entry k es) as [c|] eqn:E; [|discriminate].
    destruct (Hg k rest st es c eq_refl E) as (st' & es' & -> & E').
    cbn [FS.walk]. rewrite Hk, E'. rewrite <- H.
    apply walk_ancestors_irrelevant, Hrest.
  - destruct q as [|k rest].
    + cbn in H. injection H as ->. reflexivity.
    + inversion Hq as [|? ? Hk Hrest]; subst. apply String.eqb_neq in Hk.
      cbn [FS.walk FS.update_at] in *.
      destruct cur as [f0|st es]; [discriminate|]. rewrite Hk in *.
      destruct (String.eqb_spec k s) as [->|Nk].
      * rewrite find_entry_map_entry.
        destruct (FS.find_entry s es) as [c|] eqn:E; [|discriminate].
        cbn [option_map]. eapply IH; [exact Hrest| | |exact H].
        -- intros ->. contradiction.
        -- intros k' rest' st' es' c' -> E'. apply (Hg k' rest' st' es' c' eq_refl E').
      * rewrite (find_entry_map_entry_other _ _ _ _ Nk).
        destruct (FS.find_entry k es) as [c|]; [|discriminate].
        rewrite <- H. apply walk_ancestors_irrelevant, Hrest.
Qed.

(** Nothing is found below a plain file. *)
Lemma lookup_below_file (fs : node) (p : path) (f : file) (k : string) (rest : path) n :
  FS.lookup fs p = inr (File f) ->
  FS.lookup fs (p ++ k :: rest)%list = inr n -> False.
Proof.
  intros Hp H. unfold FS.lookup in *.
  destruct (walk_app p [] fs _ Hp (Forall_nil _)) as (anc & _ & E).
  rewrite E in H. discriminate.
Qed.

Section FrameFacts.
Context {P : Platform}.
Variable now : Z.

Lemma add_entry_keeps (name : string) (child : node) k st es c :
  FS.find_entry k es = Some c ->
  exists st' es',
    FS.add_entry now name child (Dir st es) = Dir st' es' /\ FS.find_entry k es' = Some c.
Proof.
  intros E. eexists _, _. split; [reflexivity|]. apply find_entry_app_some, E.
Qed.

Lemma os_mkdir_frame (fs fs' : node) (p q : path) (f : file) :
  no_dotdot q ->
  FS.os_mkdir now fs p = Ok fs' ->
  FS.lookup fs q = inr (File f) ->
  FS.lookup fs' q = inr (File f).
Proof.
  intros Hq H Hf. unfold FS.os_mkdir in H.
  destruct (FS.lookup fs p) as [e|n]; [|discriminate].
  destruct (FS.lookup fs (PyPath.parent p)) as [e'|[f0|st es]] eqn:E; try discriminate.
  injection H as <-. eapply walk_update_at_frame; [exact Hq| | |exact Hf].
  - intros ->. congruence.
  - intros k rest st' es' c _ Ec. apply add_entry_keeps, Ec.
Qed.

Lemma mkdir_parents_frame (rp : list string) : forall fs fs1 q f,
  no_dotdot q ->
  FS.mkdir_parents now fs rp = Ok fs1 ->
  FS.lookup fs q = inr (File f) ->
  FS.lookup fs1 q = inr (File f).
Proof.
  induction rp as [|a rp IH]; intros fs fs1 q f Hq H Hf; cbn [FS.mkdir_parents] in H.
  - destruct (FS.os_mkdir now fs (rev [])) as [fs'|e] eqn:E.
    + injection H as <-. eapply os_mkdir_frame; eassumption.
    + destruct e as [[] f0|m|m|m]; try discriminate;
        (destruct (FS.is_dir fs (rev [])); [|discriminate]);
        injection H as <-; exact Hf.
  - destruct (FS.os_mkdir now fs (rev (a :: rp))) as [fs'|e] eqn:E.
    + injection H as <-. eapply os_mkdir_frame; eassumption.
    + destruct e as [[] f0|m|m|m];
        try (destruct (FS.is_dir fs (rev (a :: rp))); [|discriminate];
             injection H as <-; exact Hf).
      destruct (FS.mkdir_parents now fs rp) as [fs0|e0] eqn:E0; [|discriminate].
      cbn [bind] in H. unfold FS.mkdir_exist_ok in H.
      pose proof (IH _ _ _ _ Hq E0 Hf) as Hf0.
      destruct (FS.os_mkdir now fs0 (rev (a :: rp))) as [fs'|e] eqn:E1.
      * injection H as <-. eapply os_mkdir_frame; eassumption.
      * destruct e as [[] f1|m|m|m]; try discriminate;
          (destruct (FS.is_dir fs0 (rev (a :: rp))); [|discriminate]);
          injection H as <-; exact Hf0.
Qed.

Lemma write_text_frame (fs fs2 : node) (p q : path) (c : string) (f : file) :
  no_dotdot q ->
  q <> p ->
  FS.write_text now fs p c = Ok fs2 ->
  FS.lookup fs q = inr (File f) ->
  FS.lookup fs2 q = inr (File f).
Proof.
  intros Hq N H Hf. unfold FS.write_text in H.
  destruct (FS.lookup fs p) as [e|[f0|st es]] eqn:E; try discriminate.
  - destruct (FS.lookup fs (PyPath.parent p)) as [e'|[f0|st es]] eqn:E'; try discriminate.
    injection H as <-. eapply walk_update_at_frame; [exact Hq| | |exact Hf].
    + intros ->. congruence.
    + intros k rest st' es' c' _ Ec. apply add_entry_keeps, Ec.
  - injection H as <-. eapply walk_update_at_frame; [exact Hq|exact N| |exact Hf].
    intros k rest st' es' c' -> _. exfalso.
    exact (lookup_below_file _ _ _ _ _ _ E Hf).
Qed.

Lemma unlink_frame (fs fs1 : node) (p q : path) (f : file) :
  no_dotdot p ->
  no_dotdot q ->
  q <> p ->
  FS.unlink now fs p = Ok fs1 ->
  FS.lookup fs q = inr (File f) ->
  FS.lookup fs1 q = inr (File f).
Proof.
  intros Hp Hq N H Hf. unfold FS.unlink in H.
  destruct (FS.lookup fs p) as [e|[f0|st es]] eqn:E; try discriminate.
  injection H as <-.
  destruct p as [|a p'] using rev_ind.
  - cbn in E. injection E as ->. destruct q; [contradiction|]. discriminate.
  - unfold PyPath.parent, PyPath.name. rewrite removelast_last, last_last.
    eapply walk_update_at_frame; [exact Hq| | |exact Hf].
    + intros ->. destruct (walk_snoc_dir _ _ _ _ _ E) as (st & es & Ed).
      unfold FS.lookup in Hf. congruence.
    + intros k rest st es c -> Ec.
      assert (Nk : k <> a).
      { intros ->. destruct rest as [|k' rest].
        - apply N. reflexivity.
        - change (p' ++ a :: k' :: rest)%list with (p' ++ [a] ++ k' :: rest)%list in Hf.
          rewrite app_assoc in Hf.
          exact (lookup_below_file _ _ _ _ _ _ E Hf). }
      eexists _, _. split; [reflexivity|].
      rewrite (find_entry_drop_other _ _ _ Nk). exact Ec.
Qed.

End FrameFacts.

Section MutationTools.
Context {P : Platform}.
Variable WORK_DIR : path.

(** X4. Whatever [fs_write_file] replies, every plain file at a path other
    than the one the request resolves to is afterwards as it was before:
    same content, same size and dates. *)
Theorem write_file_keeps_other_files (now : Z) (fs : node) (params : WriteFileInput)
        (q : path) (f : file) :
  no_dotdot q ->
  (forall target, _safe_path WORK_DIR (write_path params) = Ok target -> q <> target) ->
  FS.lookup fs q = inr (File f) ->
  FS.lookup (snd (fs_write_file WORK_DIR now fs params)) q = inr (File f).
Proof.
  intros Hq N Hf. unfold fs_write_file.
  destruct (_safe_path WORK_DIR (write_path params)) as [target|e]; [|exact Hf].
  specialize (N target eq_refl).
  destruct (FS.exists_ fs target && negb (overwrite params)); [exact Hf|].
  destruct (FS.mkdir now fs (PyPath.parent target)) as [fs1|e] eqn:Hm; [|exact Hf].
  assert (Hf1 : FS.lookup fs1 q = inr (File f)).
  { eapply mkdir_parents_frame; eassumption. }
  destruct (FS.write_text now fs1 target (content params)) as [fs2|e] eqn:Hw;
    [|exact Hf1].
  cbn [snd]. eapply write_text_frame; eassumption.
Qed.

(** X5. Deleting a plain file whose directory holds no name twice replies
    with the confirmation; afterwards the path does not exist, and deleting
    it again is refused with the does-not-exist reply. *)
Theorem delete_file_then_gone (now : Z) (fs : node) (params : DeleteFileInput)
        (target : path) (f : file) st es :
  _safe_path WORK_DIR (delete_path params) = Ok target ->
  FS.lookup fs target = inr (File f) ->
  FS.lookup fs (PyPath.parent target) = inr (Dir st es) ->
  NoDup (map fst es) ->
  let out := fs_delete_file WORK_DIR now fs params in
  fst out = "✓ Deleted '" ++ delete_path params ++ "'." /\
  FS.exists_ (snd out) target = false /\
  forall now',
    fs_delete_file WORK_DIR now' (snd out) params
    = ("Error: '" ++ delete_path params ++ "' does not exist.", snd out).
Proof.
  intros Hp Hf Hd Hnd out.
  pose proof (safe_path_no_dotdot _ _ _ Hp) as Hn.
  assert (N : target <> []).
  { intros ->. cbn in Hd, Hf. congruence. }
  assert (E : out = ("✓ Deleted '" ++ delete_path params ++ "'.",
                     FS.update_at (PyPath.parent target)
                                  (FS.remove_entry now (PyPath.name target)) fs)).
  { subst out. unfold fs_delete_file. rewrite Hp.
    unfold FS.exists_, FS.is_dir, FS.unlink. rewrite Hf. reflexivity. }
  assert (G : FS.exists_ (snd out) target = false).
  { rewrite E. cbn [snd].
    pose proof (lookup_update_at fs _ (FS.remove_entry now (PyPath.name target)) _
                  (no_dotdot_parent _ Hn) Hd) as U.
    cbn [FS.remove_entry] in U.
    destruct (lookup_child _ _ _ _ (PyPath.name target) U) as (up & _ & Ec).
    rewrite <- (parent_name _ N) in Ec.
    pose proof (no_dotdot_name _ Hn N) as Hk. apply String.eqb_neq in Hk.
    rewrite Hk, (find_entry_drop_same _ _ Hnd) in Ec.
    unfold FS.exists_. rewrite Ec. reflexivity. }
  repeat split.
  - rewrite E. reflexivity.
  - exact G.
  - intros now'. unfold fs_delete_file at 1. rewrite Hp, G. reflexivity.
Qed.

(** X6. Whatever [fs_delete_file] replies, every plain file at a path other
    than the one the request resolves to is afterwards as it was before. *)
Theorem delete_file_keeps_other_files (now : Z) (fs : node) (params : DeleteFileInput)
        (q : path) (f : file) :
  no_dotdot q ->
  (forall target, _safe_path WORK_DIR (delete_path params) = Ok target -> q <> target) ->
  FS.lookup fs q = inr (File f) ->
  FS.lookup (snd (fs_delete_file WORK_DIR now fs params)) q = inr (File f).
Proof.
  intros Hq N Hf. unfold fs_delete_file.
  destruct (_safe_path WORK_DIR (delete_path params)) as [target|e] eqn:Hp; [|exact Hf].
  specialize (N target eq_refl).
  destruct (negb (FS.exists_ fs target)); [exact Hf|].
  destruct (FS.is_dir fs target); [exact Hf|].
  destruct (FS.unlink now fs target) as [fs1|e] eqn:Hu; [|exact Hf].
  cbn [snd]. eapply unlink_frame; [|exact Hq|exact N|exact Hu|exact Hf].
  eapply safe_path_no_dotdot; eassumption.
Qed.

End MutationTools.

(** ** Prefixes of path strings *)

Lemma prefix_app_same (a b c : string) :
  String.prefix (a ++ b) (a ++ c) = String.prefix b c.
Proof.
  induction a as [|x a IH]; [reflexivity|]. cbn.
  destruct (ascii_dec x x); [exact IH|congruence].
Qed.

Lemma prefix_app (a b : string) : String.prefix a (a ++ b) = true.
Proof.
  induction a as [|x a IH]; cbn; [apply prefix_empty|].
  destruct (ascii_dec x x); [exact IH|congruence].
Qed.

Lemma prefix_refl (a : string) : String.prefix a a = true.
Proof.
  induction a as [|x a IH]; [reflexivity|]. cbn.
  destruct (ascii_dec x x); [exact IH|congruence].
Qed.

Lemma concat_cons (sep x : string) (y : string) (l : list string) :
  String.concat sep (x :: y :: l) = x ++ sep ++ String.concat sep (y :: l).
Proof. reflexivity. Qed.

Lemma prefix_concat_app (sep : string) (base rel : list string) :
  String.prefix (String.concat sep base) (String.concat sep (base ++ rel)) = true.
Proof.
  induction base as [|x base IH]; [apply prefix_empty|].
  destruct base as [|y base].
  - cbn [app]. destruct rel as [|r rel]; [apply prefix_refl|].
    rewrite concat_cons. apply prefix_app.
  - cbn [app] in *. rewrite !concat_cons, !prefix_app_same. exact IH.
Qed.

Lemma strip_prefix_some (base p rel : path) :
  PyPath.strip_prefix base p = Some rel -> p = (base ++ rel)%list.
Proof.
  revert p. induction base as [|b base IH]; intros p H; cbn in *.
  - injection H as <-. reflexivity.
  - destruct p as [|s p]; [discriminate|].
    destruct (String.eqb_spec b s) as [->|]; [|discriminate].
    rewrite (IH _ H). reflexivity.
Qed.

Lemma strip_prefix_startswith (base p rel : path) :
  PyPath.strip_prefix base p = Some rel ->
  PyStr.startswith (PyPath.str p) (PyPath.str base) = true.
Proof.
  intros H. rewrite (strip_prefix_some _ _ _ H).
  unfold PyStr.startswith, PyPath.str, PyStr.join.
  rewrite prefix_app_same. apply prefix_concat_app.
Qed.

(** X7. A raw path whose resolution lies in the root, segment by segment,
    is never refused: [_safe_path] returns the resolved path. *)
Theorem safe_path_accepts_inside (WORK_DIR : path) (raw : string) (rel : path) :
  PyPath.strip_prefix WORK_DIR (PyPath.resolve (PyPath.joinpath WORK_DIR raw)) = Some rel ->
  _safe_path WORK_DIR raw = Ok (WORK_DIR ++ rel)%list.
Proof.
  intros H. unfold _safe_path.
  rewrite (strip_prefix_startswith _ _ _ H). cbn [negb].
  rewrite (strip_prefix_some _ _ _ H). reflexivity.
Qed.

(** ** Segments and separators *)

Lemma contains_slash_unfold (x : ascii) (s : string) :
  PyStr.contains "/" (String x s) = Ascii.eqb x "/"%char || PyStr.contains "/" s.
Proof.
  cbn [PyStr.contains String.prefix].
  destruct (ascii_dec "/" x) as [<-|N].
  - rewrite prefix_empty. reflexivity.
  - destruct (Ascii.eqb_spec x "/"%char); [congruence|reflexivity].
Qed.

Lemma contains_slash_app (a b : string) :
  PyStr.contains "/" (a ++ b) = PyStr.contains "/" a || PyStr.contains "/" b.
Proof.
  induction a as [|x a IH].
  - cbn [append]. destruct b; reflexivity.
  - cbn [append]. rewrite !contains_slash_unfold, IH. apply orb_assoc.
Qed.

Lemma split_slash_from_slashfree (s : string) : forall cur,
  PyStr.contains "/" cur = false ->
  Forall (fun t => PyStr.contains "/" t = false) (PyPath.split_slash_from cur s).
Proof.
  induction s as [|c s IH]; intros cur H; cbn [PyPath.split_slash_from].
  - constructor; [exact H|constructor].
  - destruct (Ascii.eqb c "/"%char) eqn:E.
    + constructor; [exact H|]. apply IH. reflexivity.
    + apply IH. rewrite contains_slash_app, H, contains_slash_unfold, E. reflexivity.
Qed.

Lemma parse_parts_slashfree (raw : string) :
  Forall (fun t => PyStr.contains "/" t = false) (PyPath.parse_parts raw).
Proof.
  unfold PyPath.parse_parts, PyPath.split_slash.
  pose proof (split_slash_from_slashfree raw "" eq_refl) as H.
  rewrite Forall_forall in *. intros t Ht. apply filter_In in Ht. apply H. tauto.
Qed.

Lemma resolve_from_Forall (Q : string -> Prop) (segs : path) : forall acc,
  Forall Q acc -> Forall Q segs -> Forall Q (PyPath.resolve_from acc segs).
Proof.
  induction segs as [|s segs IH]; intros acc Ha Hs; cbn.
  - apply Forall_rev, Ha.
  - inversion Hs; subst. destruct (String.eqb s "..").
    + apply IH; [|assumption]. destruct acc; [constructor|]. inversion Ha; assumption.
    + apply IH; [constructor|]; assumption.
Qed.

Lemma resolved_slashfree (WORK_DIR : path) (raw : string) :
  Forall (fun t => PyStr.contains "/" t = false) WORK_DIR ->
  Forall (fun t => PyStr.contains "/" t = false)
         (PyPath.resolve (PyPath.joinpath WORK_DIR raw)).
Proof.
  intros H. apply resolve_from_Forall; [constructor|].
  unfold PyPath.joinpath. destruct (PyPath.is_absolute raw).
  - apply parse_parts_slashfree.
  - apply Forall_app. split; [exact H|apply parse_parts_slashfree].
Qed.

Lemma prefix_of_empty (w : string) : String.prefix w "" = true -> w = "".
Proof. destruct w; [reflexivity|discriminate]. Qed.

Lemma prefix_cons (c d : ascii) (a b : string) :
  String.prefix (String c a) (String d b) = true -> c = d /\ String.prefix a b = true.
Proof. cbn. destruct (ascii_dec c d); [auto|discriminate]. Qed.

(** A prefix without [/] of a segment followed by [/] lies in the segment. *)
Lemma prefix_slashfree_app (w : string) : forall s t,
  PyStr.contains "/" w = false ->
  String.prefix w (s ++ String "/" t) = true ->
  String.prefix w s = true.
Proof.
  induction w as [|c w IH]; intros s t Hw H; [apply prefix_empty|].
  rewrite contains_slash_unfold in Hw. apply orb_false_elim in Hw as [Hc Hw].
  destruct s as [|d s]; cbn [append] in H; apply prefix_cons in H as [-> H].
  - discriminate.
  - cbn. destruct (ascii_dec d d); [|congruence]. eapply IH; eassumption.
Qed.

Lemma prefix_sep_in (x : string) : forall t s,
  String.prefix (x ++ String "/" t) s = true -> PyStr.contains "/" s = true.
Proof.
  induction x as [|c x IH]; intros t s H; destruct s as [|d s]; try discriminate;
    cbn [append] in H; apply prefix_cons in H as [<- H];
    rewrite contains_slash_unfold.
  - reflexivity.
  - rewrite (IH _ _ H). apply orb_true_r.
Qed.

(** Two segments followed by [/], one string a prefix of the other: the
    segments are equal. *)
Lemma prefix_segments (x : string) : forall s a b,
  PyStr.contains "/" x = false ->
  PyStr.contains "/" s = false ->
  String.prefix (x ++ String "/" a) (s ++ String "/" b) = true ->
  x = s /\ String.prefix a b = true.
Proof.
  induction x as [|c x IH]; intros s a b Hx Hs H.
  - destruct s as [|d s]; cbn [append] in H; apply prefix_cons in H as [E H].
    + auto.
    + subst d. rewrite contains_slash_unfold in Hs. discriminate.
  - rewrite contains_slash_unfold in Hx. apply orb_false_elim in Hx as [Hc Hx].
    destruct s as [|d s]; cbn [append] in H; apply prefix_cons in H as [E H].
    + subst c. discriminate.
    + subst d. rewrite contains_slash_unfold in Hs. apply orb_false_elim in Hs as [_ Hs].
      destruct (IH _ _ _ Hx Hs H) as [-> Hp]. auto.
Qed.

(** The paths whose string starts with the string of [W ++ [w]]: they run
    through [W] and then through a segment that starts with [w]. *)
Lemma concat_prefix_shape (W : path) : forall w p,
  Forall (fun t => PyStr.contains "/" t = false) (W ++ [w]) ->
  w <> "" ->
  Forall (fun t => PyStr.contains "/" t = false) p ->
  String.prefix (String.concat "/" (W ++ [w])) (String.concat "/" p) = true ->
  exists s rest, p = (W ++ s :: rest)%list /\ String.prefix w s = true.
Proof.
  induction W as [|x W IH]; intros w p HW Hw Hp H.
  - cbn [app String.concat] in H. inversion HW as [|? ? Hws _]; subst.
    destruct p as [|s [|y r]].
    + cbn in H. apply prefix_of_empty in H. contradiction.
    + exists s, []. auto.
    + rewrite concat_cons in H. exists s, (y :: r). split; [reflexivity|].
      eapply prefix_slashfree_app; eassumption.
  - cbn [app] in HW, H. inversion HW as [|? ? Hx HW']; subst.
    destruct (W ++ [w])%list as [|y0 l0] eqn:E; [destruct W; discriminate|].
    rewrite concat_cons in H.
    destruct p as [|s [|y r]].
    + destruct x; discriminate.
    + cbn [String.concat] in H. apply prefix_sep_in in H.
      inversion Hp; subst. congruence.
    + rewrite concat_cons in H. inversion Hp as [|? ? Hs Hp']; subst.
      destruct (prefix_segments _ _ _ _ Hx Hs H) as [-> H'].
      rewrite <- E in H', HW'.
      destruct (IH w (y :: r) HW' Hw Hp' H') as (s' & rest & -> & Hpre).
      exists s', rest. auto.
Qed.

(** X8. With a root [W ++ [w]], every path [_safe_path] returns runs through
    [W] and then through a segment that starts with [w]: it lies in the
    root, or in a sibling of the root whose name extends the root's name. *)
Theorem safe_path_escape_shape (W : path) (w raw : string) (p : path) :
  Forall (fun t => PyStr.contains "/" t = false) (W ++ [w]) ->
  w <> "" ->
  _safe_path (W ++ [w])%list raw = Ok p ->
  exists s rest, p = (W ++ s :: rest)%list /\ PyStr.startswith s w = true.
Proof.
  intros HW Hw H. unfold _safe_path in H.
  destruct (PyStr.startswith _ _) eqn:E; [|discriminate].
  cbn [negb] in H. injection H as <-.
  unfold PyStr.startswith, PyPath.str, PyStr.join in E.
  rewrite prefix_app_same in E.
  apply (concat_prefix_shape W w _ HW Hw (resolved_slashfree _ raw HW) E).
Qed.

(** ** Relative paths handed back *)

Lemma split_slash_from_segment (s : string) : forall cur t,
  PyStr.contains "/" s = false ->
  PyPath.split_slash_from cur (s ++ String "/" t)
  = (cur ++ s) :: PyPath.split_slash_from "" t.
Proof.
  induction s as [|c s IH]; intros cur t H.
  - cbn. replace (cur ++ "") with cur; [reflexivity|].
    induction cur as [|x cur IHc]; cbn; [reflexivity|]. rewrite <- IHc. reflexivity.
  - rewrite contains_slash_unfold in H. apply orb_false_elim in H as [Hc Hs].
    cbn [append PyPath.split_slash_from]. rewrite Hc, (IH _ _ Hs), append_snoc.
    reflexivity.
Qed.

Lemma split_slash_concat (rel : path) :
  rel <> [] ->
  Forall (fun t => PyStr.contains "/" t = false) rel ->
  PyPath.split_slash (String.concat "/" rel) = rel.
Proof.
  unfold PyPath.split_slash.
  induction rel as [|s rel IH]; intros N H; [contradiction|].
  inversion H as [|? ? Hs Hrel]; subst.
  destruct rel as [|y r].
  - cbn [String.concat]. apply (split_slash_from_plain s "" Hs).
  - rewrite concat_cons. cbn [append].
    rewrite (split_slash_from_segment s "" _ Hs). cbn [append].
    rewrite IH; [reflexivity|discriminate|exact Hrel].
Qed.

Lemma plain_path_slashfree (p : path) :
  plain_path p -> Forall (fun t => PyStr.contains "/" t = false) p.
Proof.
  intros H. eapply Forall_impl; [|exact H]. intros t (_ & _ & _ & Ht). exact Ht.
Qed.

Lemma plain_path_no_dotdot (p : path) : plain_path p -> no_dotdot p.
Proof.
  intros H. eapply Forall_impl; [|exact H]. intros t (_ & _ & Ht & _). exact Ht.
Qed.

Lemma parse_parts_concat (rel : path) :
  plain_path rel -> PyPath.parse_parts (PyPath.str_relative rel) = rel.
Proof.
  intros H. destruct rel as [|s rel]; [reflexivity|].
  unfold PyPath.str_relative, PyPath.parse_parts, PyStr.join.
  rewrite split_slash_concat; [|discriminate|apply plain_path_slashfree, H].
  apply forallb_filter_id. apply forallb_forall. intros t Ht.
  unfold plain_path in H. rewrite Forall_forall in H.
  destruct (H t Ht) as (H1 & H2 & _).
  apply String.eqb_neq in H1, H2. rewrite H1, H2. reflexivity.
Qed.

Lemma str_relative_not_absolute (rel : path) :
  plain_path rel -> PyPath.is_absolute (PyPath.str_relative rel) = false.
Proof.
  intros H. destruct rel as [|s rel]; [reflexivity|].
  inversion H as [|? ? (Hne & _ & _ & Hs) _]; subst.
  destruct s as [|c s]; [contradiction|].
  rewrite contains_slash_unfold in Hs. apply orb_false_elim in Hs as [Hc _].
  unfold PyPath.is_absolute, PyStr.startswith, PyPath.str_relative, PyStr.join.
  assert (E : exists t, String.concat "/" (String c s :: rel) = String c t).
  { destruct rel; [exists s; reflexivity|]. rewrite concat_cons. eexists. reflexivity. }
  destruct E as [t ->]. cbn [String.prefix].
  destruct (ascii_dec "/" c) as [<-|]; [discriminate|reflexivity].
Qed.

Lemma resolve_from_plain (segs : path) : forall acc,
  no_dotdot segs -> PyPath.resolve_from acc segs = (rev acc ++ segs)%list.
Proof.
  induction segs as [|s segs IH]; intros acc H; cbn.
  - symmetry. apply app_nil_r.
  - inversion H as [|? ? Hs Hsegs]; subst. apply String.eqb_neq in Hs. rewrite Hs.
    rewrite (IH _ Hsegs). cbn [rev]. rewrite <- app_assoc. reflexivity.
Qed.

Lemma strip_prefix_self (base rel : path) :
  PyPath.strip_prefix base (base ++ rel)%list = Some rel.
Proof.
  induction base as [|b base IH]; [reflexivity|]. cbn.
  rewrite String.eqb_refl. exact IH.
Qed.

(** X9. The relative path in a descriptor made by [_file_info], handed back
    as a raw path, is accepted by [_safe_path] and resolves to the path the
    descriptor was made for, when the root and that path hold plain segments
    only. *)
Theorem file_info_path_round_trip {P : Platform} (WORK_DIR : path) (fs : node)
        (p : path) (m : FileInfo) :
  plain_path WORK_DIR ->
  plain_path p ->
  _file_info WORK_DIR fs p = Ok m ->
  _safe_path WORK_DIR (info_path m) = Ok p.
Proof.
  intros HW Hp H. unfold _file_info in H.
  destruct (FS.stat fs p) as [st|e]; [|discriminate]. cbn [bind] in H.
  unfold relative_to_WORK_DIR in H.
  destruct (PyPath.strip_prefix WORK_DIR p) as [rel|] eqn:E; [|discriminate].
  cbn [bind] in H. injection H as <-. cbn [info_path].
  pose proof (strip_prefix_some _ _ _ E) as ->.
  assert (Hrel : plain_path rel).
  { unfold plain_path in *. apply Forall_app in Hp. tauto. }
  assert (R : PyPath.resolve (PyPath.joinpath WORK_DIR (PyPath.str_relative rel))
              = (WORK_DIR ++ rel)%list).
  { unfold PyPath.joinpath, PyPath.resolve.
    rewrite (str_relative_not_absolute _ Hrel), (parse_parts_concat _ Hrel).
    apply (resolve_from_plain _ []). apply plain_path_no_dotdot, Hp. }
  unfold _safe_path. rewrite R.
  rewrite (strip_prefix_startswith WORK_DIR _ rel (strip_prefix_self _ _)).
  reflexivity.
Qed.

(** ** Listings and searches *)

Lemma mapM_filter {A B : Type} (f : A -> result B) (q : A -> bool) (q' : B -> bool)
      (l : list A) (l' : list B) :
  (forall x y, f x = Ok y -> q x = q' y) ->
  mapM f l = Ok l' ->
  mapM f (filter q l) = Ok (filter q' l').
Proof.
  intros Hq. revert l'. induction l as [|x l IH]; intros l' H; cbn in H.
  - injection H as <-. reflexivity.
  - destruct (f x) as [y|e] eqn:E; [|discriminate]. cbn [bind] in H.
    destruct (mapM f l) as [ys|e]; [|discriminate]. cbn [bind] in H.
    injection H as <-. cbn [filter]. rewrite <- (Hq _ _ E).
    destruct (q x); cbn [mapM]; rewrite ?E, (IH _ eq_refl); reflexivity.
Qed.

Lemma file_info_name {P : Platform} (WORK_DIR : path) (fs : node) (p : path) (m : FileInfo) :
  _file_info WORK_DIR fs p = Ok m -> info_name m = PyPath.name p.
Proof.
  unfold _file_info. intros H.
  destruct (FS.stat fs p); [|discriminate]. cbn [bind] in H.
  destruct (relative_to_WORK_DIR WORK_DIR p); [|discriminate]. cbn [bind] in H.
  injection H as <-. reflexivity.
Qed.

Lemma filter_filter {A : Type} (f g : A -> bool) (l : list A) :
  (forall x, g x = true -> f x = true) -> filter g (filter f l) = filter g l.
Proof.
  intros H. induction l as [|x l IH]; [reflexivity|]. cbn.
  destruct (f x) eqn:Ef; cbn.
  - rewrite IH. reflexivity.
  - destruct (g x) eqn:Eg; [|exact IH]. rewrite (H _ Eg) in Ef. discriminate.
Qed.

Section ListingTools.
Context {P : Platform}.
Variable WORK_DIR : path.

(** X10. When a listing with [show_hidden=true] is made, the listing of the
    same directory with [show_hidden=false] is made as well and holds the
    same descriptors in the same order, less those whose name starts with a
    dot; its count is the number of descriptors it holds. *)
Theorem list_directory_hidden (fs : node) (raw : string) (r1 : ListDirResult) :
  fs_list_directory WORK_DIR fs {| list_path := raw; show_hidden := true |} = Json r1 ->
  exists r2,
    fs_list_directory WORK_DIR fs {| list_path := raw; show_hidden := false |} = Json r2 /\
    entries r2 = filter (fun e => negb (is_hidden (info_name e))) (entries r1) /\
    list_count r2 = List.length (entries r2) /\
    Forall (fun e => PyStr.startswith (info_name e) "." = false) (entries r2).
Proof.
  unfold fs_list_directory. cbn [list_path show_hidden]. intros H.
  destruct (_safe_path WORK_DIR raw) as [target|e]; [|discriminate].
  cbn [bind] in *.
  destruct (negb (FS.is_dir fs target)); [discriminate|].
  unfold list_items in *.
  destruct (FS.listdir fs target) as [names|e]; [|discriminate].
  cbn [bind negb andb] in *.
  match type of H with
  | context [filter ?q (sorted ?le ?l)] => set (S := sorted le l) in *; set (q1 := q) in *
  end.
  destruct (mapM (_file_info WORK_DIR fs) (filter q1 S)) as [es1|e] eqn:E1; [|discriminate].
  cbn [bind] in H. injection H as <-. cbn [entries].
  pose proof (mapM_filter (_file_info WORK_DIR fs)
                (fun item => negb (is_hidden (PyPath.name item)))
                (fun e => negb (is_hidden (info_name e)))
                _ _
                (fun x y Hxy => f_equal (fun n => negb (is_hidden n))
                                        (eq_sym (file_info_name _ _ _ _ Hxy)))
                E1) as E2.
  rewrite filter_filter in E2 by (intros; reflexivity).
  rewrite E2. cbn [bind]. eexists. split; [reflexivity|]. cbn [entries list_count].
  split; [reflexivity|]. split; [reflexivity|].
  apply Forall_forall. intros e He. apply filter_In in He as [_ He].
  unfold is_hidden in He. apply negb_true_iff in He. exact He.
Qed.

(** X11. The matches of [fs_search_files] are the descriptors of paths in
    ascending order, segment by segment, whichever the flag and the pattern;
    the count is the number of matches. *)
Theorem search_files_ascending (fs : node) (params : SearchFilesInput) (r : SearchResult) :
  fs_search_files WORK_DIR fs params = Json r ->
  search_count r = List.length (matches r) /\
  exists paths,
    Forall2 (fun p m => _file_info WORK_DIR fs p = Ok m) paths (matches r) /\
    StronglySorted (fun p q => PyPath.leb p q = true) paths.
Proof.
  unfold fs_search_files. intros H.
  destruct (_safe_path WORK_DIR (search_directory params)) as [root|e]; [|discriminate].
  cbn [bind] in H.
  destruct (negb (FS.is_dir fs root)); [discriminate|].
  destruct (search_paths fs root params) as [paths|e] eqn:Es; [|discriminate].
  cbn [bind] in H.
  destruct (mapM (_file_info WORK_DIR fs) paths) as [ms|e] eqn:Em; [|discriminate].
  cbn [bind] in H. injection H as <-. cbn [matches search_count].
  split; [reflexivity|]. exists paths. split; [apply mapM_Forall2, Em|].
  unfold search_paths in Es.
  destruct (if recursive params then _ else _) as [found|e]; [|discriminate].
  cbn [bind] in Es. injection Es as <-.
  apply filter_strongly_sorted, sorted_paths_ascending.
Qed.

End ListingTools.

Lemma ends_with_star_star (p : string) :
  p <> "" -> PyStr.ends_with ("**/" ++ p) "/" = PyStr.ends_with p "/".
Proof.
  intros N. cbn [append PyStr.ends_with String.eqb Ascii.eqb Bool.eqb andb orb].
  destruct p as [|c p]; [contradiction|]. reflexivity.
Qed.

Lemma pattern_parts_star_star (p : string) :
  p <> "" -> Glob.pattern_parts ("**/" ++ p) = "**" :: Glob.pattern_parts p.
Proof.
  intros N. unfold Glob.pattern_parts. rewrite (ends_with_star_star p N).
  reflexivity.
Qed.

(** [rglob(p)] is [glob] of [**/p]. *)
Lemma rglob_is_glob_star_star {P : Platform} (fs : node) (root : path) (p : string) :
  p <> "" ->
  PyPath.is_absolute p = false ->
  Glob.rglob fs root p = Glob.glob fs root ("**/" ++ p).
Proof.
  intros N A. unfold Glob.rglob, Glob.glob.
  rewrite (pattern_parts_star_star p N), A.
  replace (String.eqb ("**/" ++ p) "") with false by reflexivity.
  replace (PyPath.is_absolute ("**/" ++ p)) with false by reflexivity.
  reflexivity.
Qed.

(** X12. A search with [recursive=true] for a relative pattern is the
    search with [recursive=false] for the pattern with [**/] in front: the
    two calls find the same paths and report the same matches, or reply with
    the same error. *)
Theorem search_recursive_is_star_star {P : Platform} (WORK_DIR : path) (fs : node)
        (dir pat : string) :
  pat <> "" ->
  PyPath.is_absolute pat = false ->
  match fs_search_files WORK_DIR fs
                        {| pattern := pat; search_directory := dir; recursive := true |},
        fs_search_files WORK_DIR fs
                        {| pattern := "**/" ++ pat; search_directory := dir;
                           recursive := false |}
  with
  | Json r1, Json r2 => matches r1 = matches r2 /\ search_count r1 = search_count r2
  | Text s1, Text s2 => s1 = s2
  | _, _ => False
  end.
Proof.
  intros N A. unfold fs_search_files, search_paths.
  cbn [pattern search_directory recursive].
  destruct (_safe_path WORK_DIR dir) as [root|e]; [|reflexivity]. cbn [bind].
  destruct (negb (FS.is_dir fs root)); [reflexivity|].
  rewrite (rglob_is_glob_star_star fs _ pat N A).
  destruct (Glob.glob fs root ("**/" ++ pat)) as [found|e]; [|reflexivity]. cbn [bind].
  destruct (mapM (_file_info WORK_DIR fs) _) as [ms|e]; [|reflexivity]. cbn [bind].
  split; reflexivity.
Qed.

(** ** More on fs_grep *)

Section GrepMore.
Context {P : Platform}.
Variable WORK_DIR : path.
Variable fs : node.

Lemma scan_files_count (params : GrepInput) (files : list path) : forall acc n out,
  scan_files WORK_DIR fs params files acc n = Ok out ->
  snd out <= n + List.length (filter (readable_file fs) files) /\
  (List.length (fst out) < max_results params ->
   snd out = n + List.length (filter (readable_file fs) files)).
Proof.
  induction files as [|f files IH]; intros acc n out H; cbn [scan_files] in H.
  - injection H as <-. cbn. lia.
  - cbn [filter]. remember (readable_file fs f) as b eqn:R.
    unfold readable_file in R.
    destruct (FS.is_file fs f); cbn [negb andb] in *;
      [|subst b; apply IH in H; exact H].
    destruct (FS.read_text fs f) as [text|e]; subst b; [|apply IH in H; exact H].
    destruct (scan_lines WORK_DIR params f 1 (PyStr.splitlines text) acc)
      as [res|e]; [|discriminate].
    cbn [bind] in H.
    destruct (Nat.leb (max_results params) (List.length res)) eqn:E.
    + injection H as <-. cbn [fst snd List.length]. apply Nat.leb_le in E. lia.
    + apply IH in H. cbn [List.length]. lia.
Qed.

(** X13. A search never counts more files than there are readable plain
    files among those found; and when [truncated] is false it has read every
    one of them and reports every matching line of each, in order. *)
Theorem grep_exhaustive (params : GrepInput) (r : GrepResult) :
  GrepInput_valid params ->
  fs_grep WORK_DIR fs params = Json r ->
  exists root found,
    _safe_path WORK_DIR (grep_directory params) = Ok root /\
    Glob.rglob fs root (file_pattern params) = Ok found /\
    files_searched r
    <= List.length (filter (readable_file fs) (sorted PyPath.leb found)) /\
    (truncated r = false ->
     files_searched r
     = List.length (filter (readable_file fs) (sorted PyPath.leb found)) /\
     Forall2 (reports WORK_DIR)
             (all_hits fs params (sorted PyPath.leb found)) (results r)).
Proof.
  intros [_ Hm] H. unfold fs_grep in H.
  destruct (_safe_path WORK_DIR (grep_directory params)) as [root|e] eqn:Ep; [|discriminate].
  cbn [bind] in H.
  destruct (Glob.rglob fs root (file_pattern params)) as [found|e] eqn:Eg; [|discriminate].
  cbn [bind] in H.
  destruct (scan_files WORK_DIR fs params (sorted PyPath.leb found) [] 0)
    as [out|e] eqn:Es; [|discriminate].
  cbn [bind] in H. injection H as <-. cbn [results truncated files_searched].
  destruct (scan_files_count params _ _ _ _ Es) as [Hle Heq]. cbn [plus] in Hle, Heq.
  exists root, found. repeat split; auto.
  - apply Heq. apply Nat.leb_gt. assumption.
  - assert (F : Forall2 (reports WORK_DIR)
                        (firstn (max_results params)
                                (all_hits fs params (sorted PyPath.leb found)))
                        (fst out)).
    { apply (scan_files_hits WORK_DIR fs params _ [] [] 0 out); [constructor| |exact Es].
      cbn. lia. }
    rewrite firstn_short in F; [exact F|].
    rewrite (Forall2_length F). apply Nat.leb_gt. assumption.
Qed.

Lemma scan_lines_ext (p1 p2 : GrepInput) (f : path) (lines : list string) :
  max_results p1 = max_results p2 ->
  (forall line, line_matches p1 line = line_matches p2 line) ->
  forall n acc,
    scan_lines WORK_DIR p1 f n lines acc = scan_lines WORK_DIR p2 f n lines acc.
Proof.
  intros Hm Hl. induction lines as [|line lines IH]; intros n acc; [reflexivity|].
  cbn [scan_lines]. rewrite Hl, Hm.
  destruct (line_matches p2 line); [|apply IH].
  destruct (relative_to_WORK_DIR WORK_DIR f); [|reflexivity]. cbn [bind].
  destruct (Nat.leb _ _); [reflexivity|apply IH].
Qed.

Lemma scan_files_ext (p1 p2 : GrepInput) (files : list path) :
  max_results p1 = max_results p2 ->
  (forall line, line_matches p1 line = line_matches p2 line) ->
  forall acc n,
    scan_files WORK_DIR fs p1 files acc n = scan_files WORK_DIR fs p2 files acc n.
Proof.
  intros Hm Hl. induction files as [|f files IH]; intros acc n; [reflexivity|].
  cbn [scan_files].
  destruct (negb (FS.is_file fs f)); [apply IH|].
  destruct (FS.read_text fs f) as [text|e]; [|apply IH].
  rewrite (scan_lines_ext p1 p2 f _ Hm Hl).
  destruct (scan_lines WORK_DIR p2 f 1 (PyStr.splitlines text) acc); [|reflexivity].
  cbn [bind]. rewrite Hm. destruct (Nat.leb _ _); [reflexivity|apply IH].
Qed.

(** X14. Two searches without case sensitivity whose texts have the same
    lower-cased form, and which are otherwise the same request, report the
    same matches, the same count of files and the same [truncated] flag, or
    reply with the same error. *)
Theorem grep_case_insensitive (t1 t2 dir pat : string) (cap : nat) :
  str_lower t1 = str_lower t2 ->
  match fs_grep WORK_DIR fs
                {| text := t1; grep_directory := dir; file_pattern := pat;
                   case_sensitive := false; max_results := cap |},
        fs_grep WORK_DIR fs
                {| text := t2; grep_directory := dir; file_pattern := pat;
                   case_sensitive := false; max_results := cap |}
  with
  | Json r1, Json r2 =>
    results r1 = results r2 /\ files_searched r1 = files_searched r2 /\
    matches_found r1 = matches_found r2 /\ truncated r1 = truncated r2
  | Text s1, Text s2 => s1 = s2
  | _, _ => False
  end.
Proof.
  intros Ht. unfold fs_grep. cbn [grep_directory file_pattern max_results text].
  destruct (_safe_path WORK_DIR dir) as [root|e]; [|reflexivity]. cbn [bind].
  destruct (Glob.rglob fs root pat) as [found|e]; [|reflexivity]. cbn [bind].
  rewrite (scan_files_ext
             {| text := t1; grep_directory := dir; file_pattern := pat;
                case_sensitive := false; max_results := cap |}
             {| text := t2; grep_directory := dir; file_pattern := pat;
                case_sensitive := false; max_results := cap |}
             _ eq_refl).
  - destruct (scan_files _ _ _ _ _ _) as [out|e]; [|reflexivity]. cbn [bind].
    cbn [results files_searched matches_found truncated]. auto.
  - intros line. unfold line_matches, needle. cbn [case_sensitive text].
    rewrite Ht. reflexivity.
Qed.

(** X15. What [fs_file_info] describes lies in the root segment by segment
    and exists, the path it reports being the one relative to the root: a
    sibling of the root that [_safe_path] lets through is answered with an
    error.  A directory gets neither line count nor extension, anything else
    gets both. *)
Theorem file_info_inside_root (raw : string) (r : FileInfoPlus) :
  fs_file_info WORK_DIR fs raw = Json r ->
  exists rel,
    no_dotdot rel /\
    _safe_path WORK_DIR raw = Ok (WORK_DIR ++ rel)%list /\
    info_path (info r) = PyPath.str_relative rel /\
    FS.exists_ fs (WORK_DIR ++ rel)%list = true /\
    (if is_dir (info r) then line_count r = None /\ extension r = None
     else line_count r <> None /\ extension r <> None).
Proof.
  unfold fs_file_info. intros H.
  destruct (_safe_path WORK_DIR raw) as [target|e] eqn:Ep; [|discriminate].
  cbn [bind] in H.
  pose proof (safe_path_no_dotdot _ _ _ Ep) as Hn.
  unfold _file_info in H.
  destruct (FS.stat fs target) as [st|e] eqn:Est; [|discriminate]. cbn [bind] in H.
  unfold relative_to_WORK_DIR in H.
  destruct (PyPath.strip_prefix WORK_DIR target) as [rel|] eqn:Er; [|discriminate].
  cbn [bind] in H.
  pose proof (strip_prefix_some _ _ _ Er) as ->.
  exists rel.
  assert (Hex : FS.exists_ fs (WORK_DIR ++ rel)%list = true).
  { unfold FS.stat in Est. unfold FS.exists_.
    destruct (FS.lookup fs (WORK_DIR ++ rel)%list); [discriminate|reflexivity]. }
  split; [unfold no_dotdot in *; apply Forall_app in Hn; tauto|].
  split; [reflexivity|].
  unfold FS.is_file, FS.is_dir, FS.exists_ in *.
  destruct (FS.lookup fs (WORK_DIR ++ rel)%list) as [e|[f|st' es]]; try discriminate;
    injection H as <-; cbn [info info_path is_dir line_count extension];
    repeat split; auto; discriminate.
Qed.

End GrepMore.

(** ** Patterns that go up *)

Lemma walk_child_dotdot (p : path) : forall anc cur s st es q,
  no_dotdot p ->
  s <> ".." ->
  FS.walk anc cur (p ++ [s])%list = inr (Dir st es) ->
  FS.walk anc cur (p ++ s :: ".." :: q)%list = FS.walk anc cur (p ++ q)%list.
Proof.
  induction p as [|a p IH]; intros anc cur s st es q Hp Hs H.
  - cbn [app FS.walk] in *. destruct cur as [f|st0 es0]; [discriminate|].
    apply String.eqb_neq in Hs. rewrite Hs in *.
    destruct (FS.find_entry s es0) as [n|]; [|discriminate].
    injection H as ->. reflexivity.
  - inversion Hp as [|? ? Ha Hp']; subst. apply String.eqb_neq in Ha.
    cbn [app FS.walk] in *. destruct cur as [f|st0 es0]; [discriminate|].
    rewrite Ha in *.
    destruct (FS.find_entry a es0) as [n|]; [|discriminate].
    eapply IH; eassumption.
Qed.

Lemma contains_star_star (s : string) :
  PyStr.contains "**" s = true -> PyStr.contains "*" s = true.
Proof.
  induction s as [|c s IH]; [discriminate|].
  cbn [PyStr.contains String.prefix]. intros H.
  apply orb_true_iff in H as [H|H].
  - destruct (ascii_dec "*" c); [|discriminate]. rewrite prefix_empty. reflexivity.
  - rewrite (IH H). apply orb_true_r.
Qed.

Lemma pattern_parts_dotdot (name : string) :
  plain_segment name ->
  Glob.pattern_parts ("../" ++ name) = [".."; name].
Proof.
  intros (H1 & H2 & _ & Hs).
  unfold Glob.pattern_parts, PyPath.parse_parts, PyPath.split_slash.
  assert (E : PyStr.ends_with ("../" ++ name) "/" = false).
  { destruct name as [|c name]; [contradiction|].
    change (PyStr.ends_with ("../" ++ String c name) "/")
      with (PyStr.ends_with (String c name) "/").
    destruct (PyStr.ends_with (String c name) "/") eqn:E; [|reflexivity].
    apply ends_with_slash_contains in E. congruence. }
  rewrite E, app_nil_r.
  change (PyPath.split_slash_from "" ("../" ++ name))
    with (".." :: PyPath.split_slash_from "" name).
  rewrite (split_slash_from_plain name "" Hs). cbn [append filter].
  apply String.eqb_neq in H1, H2. rewrite H1, H2. reflexivity.
Qed.

(** X16. A pattern may leave the directory searched: in a directory
    [W ++ [w]] of the root, the pattern [../name], for a plain name without
    wildcard, reports the plain file [name] of the parent [W], under a
    relative path through [..]. *)
Theorem search_pattern_dotdot {P : Platform} (WORK_DIR : path) (fs : node)
        (dir name : string) (W : path) (w : string) (rel : path) (f : file) :
  _safe_path WORK_DIR dir = Ok (W ++ [w])%list ->
  PyPath.strip_prefix WORK_DIR (W ++ [w])%list = Some rel ->
  FS.is_dir fs (W ++ [w])%list = true ->
  FS.lookup fs (W ++ [name])%list = inr (File f) ->
  plain_segment name ->
  Glob.is_wildcard_pattern name = false ->
  fs_search_files WORK_DIR fs
                  {| pattern := "../" ++ name; search_directory := dir;
                     recursive := false |}
  = Json {| res_pattern := "../" ++ name;
            res_directory := dir;
            res_recursive := false;
            search_count := 1;
            matches := [{| info_name := name;
                           info_path := PyPath.str_relative (rel ++ [".."; name])%list;
                           size_bytes := st_size (f_stat f);
                           modified := format_mtime (st_mtime (f_stat f));
                           is_dir := false |}] |}.
Proof.
  intros Hp Hrel Hd Hf Hname Hw.
  pose proof (safe_path_no_dotdot _ _ _ Hp) as Hn.
  assert (HW : no_dotdot W /\ w <> "..").
  { unfold no_dotdot in Hn. apply Forall_app in Hn as [HW Hw']. split; [exact HW|].
    inversion Hw'. assumption. }
  destruct HW as [HW Hw'].
  assert (Hdir : exists st es, FS.lookup fs (W ++ [w])%list = inr (Dir st es)).
  { unfold FS.is_dir in Hd. destruct (FS.lookup fs (W ++ [w])%list) as [e|[f0|st es]];
      try discriminate. eauto. }
  destruct Hdir as (st & es & Hdir).
  assert (Hup : FS.lookup fs ((W ++ [w]) ++ [".."])%list = FS.lookup fs W).
  { rewrite <- app_assoc. cbn [app].
    rewrite <- (app_nil_r W) at 2.
    apply (walk_child_dotdot W [] fs w st es [] HW Hw' Hdir). }
  assert (Hfile : FS.lookup fs (((W ++ [w]) ++ [".."]) ++ [name])%list = inr (File f)).
  { rewrite <- !app_assoc. cbn [app]. rewrite <- Hf.
    apply (walk_child_dotdot W [] fs w st es [name] HW Hw' Hdir). }
  destruct (walk_snoc_dir _ _ _ _ _ Hf) as (st' & es' & HWdir).
  destruct Hname as (N1 & N2 & N3 & Ns).
  assert (Nss : PyStr.contains "**" name = false).
  { destruct (PyStr.contains "**" name) eqn:E; [|reflexivity].
    apply contains_star_star in E. unfold Glob.is_wildcard_pattern in Hw.
    rewrite E in Hw. discriminate. }
  assert (Nstar : String.eqb name "**" = false).
  { apply String.eqb_neq. intros ->. discriminate. }
  unfold fs_search_files, search_paths. cbn [pattern search_directory recursive].
  rewrite Hp. cbn [bind]. rewrite Hd. cbn [negb].
  unfold Glob.glob.
  replace (String.eqb ("../" ++ name) "") with false by reflexivity.
  replace (PyPath.is_absolute ("../" ++ name)) with false by reflexivity.
  rewrite (pattern_parts_dotdot name (conj N1 (conj N2 (conj N3 Ns)))).
  cbn [Glob.make_selector]. apply String.eqb_neq in N1.
  rewrite N1, Nstar, Nss, Hw.
  replace (String.eqb ".." "") with false by reflexivity.
  replace (String.eqb ".." "**") with false by reflexivity.
  replace (PyStr.contains "**" "..") with false by reflexivity.
  replace (Glob.is_wildcard_pattern "..") with false by reflexivity.
  cbn [bind Glob.nonempty]. unfold Glob.select_from. rewrite Hd.
  cbn [Glob.select]. unfold FS.is_dir at 1. unfold FS.lookup in Hup, HWdir.
  unfold FS.lookup at 1. rewrite Hup, HWdir.
  unfold FS.exists_. rewrite Hfile.
  cbn [sorted insert_sorted filter]. unfold FS.is_file. rewrite Hfile.
  cbn [mapM]. unfold _file_info, FS.stat, relative_to_WORK_DIR, FS.is_dir.
  rewrite Hfile. cbn [bind FS.node_stat].
  rewrite (strip_prefix_app _ _ _ [name]
             (strip_prefix_app _ _ _ [".."] Hrel)).
  cbn [bind]. unfold PyPath.name. rewrite last_last.
  rewrite <- app_assoc. reflexivity.
Qed.

(** X17. [fs_grep] does not test that its directory is one: on a path of
    the root that is a plain file or does not exist, with a pattern [rglob]
    takes, it replies with no match, no file searched and [truncated]
    false. *)
Theorem grep_not_a_directory {P : Platform} (WORK_DIR : path) (fs : node)
        (params : GrepInput) (root : path) (found : list path) :
  GrepInput_valid params ->
  _safe_path WORK_DIR (grep_directory params) = Ok root ->
  FS.is_dir fs root = false ->
  Glob.rglob fs root (file_pattern params) = Ok found ->
  fs_grep WORK_DIR fs params
  = Json {| search_text := text params; files_searched := 0; matches_found := 0;
            truncated := false; results := [] |}.
Proof.
  intros [_ Hm] Hp Hd Hg. unfold fs_grep. rewrite Hp. cbn [bind]. rewrite Hg.
  assert (E : found = []).
  { unfold Glob.rglob in Hg. destruct (PyPath.is_absolute _); [discriminate|].
    destruct (Glob.make_selector _); [|discriminate]. cbn [bind] in Hg.
    unfold Glob.select_from in Hg. rewrite Hd in Hg. injection Hg as <-. reflexivity. }
  subst found. cbn [bind sorted scan_files fst snd List.length].
  replace (Nat.leb (max_results params) 0) with false; [reflexivity|].
  symmetry. apply Nat.leb_gt. lia.
Qed.

(** ** The further properties at concrete inputs *)

Lemma write_file_then_read_witness :
  let params := {| write_path := "a/b.txt"; content := "hi"; overwrite := false |} in
  let out := fs_write_file (P := Sample.platform) Sample.data 9 Sample.data_fs params in
  FS.is_file (snd out) ["data"; "a"; "b.txt"] = true /\
  FS.is_dir (snd out) ["data"; "a"] = true /\
  fs_read_file (P := Sample.platform) Sample.data (snd out)
               {| read_path := "a/b.txt"; max_lines := None |}
  = "hi" ++ read_meta (P := Sample.platform) "a/b.txt" (mk_stat 2 9).
Proof.
  intros params out.
  destruct (write_file_then_read (P := Sample.platform) Sample.data 9%Z Sample.data_fs
              params ["data"; "a"; "b.txt"] (fst out) (snd out)
              eq_refl eq_refl eq_refl) as (A & _ & C & D).
  split; [exact A|]. split; [exact C|].
  apply D. intros f Hf. discriminate Hf.
Defined.

Lemma write_file_then_write_refused_witness :
  let params := {| write_path := "a/b.txt"; content := "hi"; overwrite := false |} in
  let out := fs_write_file (P := Sample.platform) Sample.data 9 Sample.data_fs params in
  fs_write_file (P := Sample.platform) Sample.data 10 (snd out)
                {| write_path := "a/b.txt"; content := "other"; overwrite := false |}
  = ("Error: 'a/b.txt' already exists. Set overwrite=true to replace it.", snd out).
Proof.
  intros params out.
  apply (write_file_then_write_refused (P := Sample.platform) Sample.data 9%Z
           Sample.data_fs params ["data"; "a"; "b.txt"] (fst out) (snd out)
           eq_refl eq_refl eq_refl 10%Z "other").
Defined.


Lemma write_file_keeps_other_files_witness :
  FS.lookup (snd (fs_write_file (P := Sample.platform) Sample.data 9 Sample.data_fs
                                {| write_path := "y"; content := "hi";
                                   overwrite := false |}))
            ["data"; "x"]
  = inr (Sample.plain "mine" 1).
Proof.
  apply (write_file_keeps_other_files (P := Sample.platform) Sample.data 9%Z
           Sample.data_fs {| write_path := "y"; content := "hi"; overwrite := false |}
           ["data"; "x"]).
  - repeat constructor; discriminate.
  - intros target H. vm_compute in H. injection H as <-. discriminate.
  - reflexivity.
Defined.

Lemma delete_file_then_gone_witness :
  let params := {| delete_path := "sub/b.txt" |} in
  let out := fs_delete_file (P := Sample.platform) Sample.work 9 Sample.work_fs params in
  fst out = "✓ Deleted 'sub/b.txt'." /\
  FS.exists_ (snd out) ["work"; "sub"; "b.txt"] = false /\
  fs_delete_file (P := Sample.platform) Sample.work 10 (snd out) params
  = ("Error: 'sub/b.txt' does not exist.", snd out).
Proof.
  intros params out.
  destruct (delete_file_then_gone (P := Sample.platform) Sample.work 9%Z Sample.work_fs
              params ["work"; "sub"; "b.txt"]
              (mk_file ("todo item" ++ Sample.LFs ++ "done") (mk_stat 14 7) true)
              (mk_stat 64 0)
              [("b.txt", Sample.plain ("todo item" ++ Sample.LFs ++ "done") 7)]
              eq_refl eq_refl eq_refl
              ltac:(repeat constructor; intros [])) as (A & B & C).
  split; [exact A|]. split; [exact B|]. apply C.
Defined.

Lemma delete_file_keeps_other_files_witness :
  FS.lookup (snd (fs_delete_file (P := Sample.platform) Sample.work 9 Sample.work_fs
                                 {| delete_path := "a.txt" |}))
            ["work"; "b.txt"]
  = inr (Sample.plain "beta" 5).
Proof.
  apply (delete_file_keeps_other_files (P := Sample.platform) Sample.work 9%Z
           Sample.work_fs {| delete_path := "a.txt" |} ["work"; "b.txt"]).
  - repeat constructor; discriminate.
  - intros target H. vm_compute in H. injection H as <-. discriminate.
  - reflexivity.
Defined.

Lemma safe_path_accepts_inside_witness :
  _safe_path Sample.data "x/../x" = Ok ["data"; "x"].
Proof.
  apply (safe_path_accepts_inside Sample.data "x/../x" ["x"]). reflexivity.
Defined.

Lemma safe_path_escape_shape_witness :
  exists s rest,
    ["data-secret"; "x"] = s :: rest /\ PyStr.startswith s "data" = true.
Proof.
  apply (safe_path_escape_shape [] "data" "../data-secret/x" ["data-secret"; "x"]).
  - repeat constructor.
  - discriminate.
  - reflexivity.
Defined.

Lemma file_info_path_round_trip_witness :
  _safe_path Sample.work "sub/b.txt" = Ok ["work"; "sub"; "b.txt"].
Proof.
  apply (file_info_path_round_trip (P := Sample.platform) Sample.work Sample.work_fs
           ["work"; "sub"; "b.txt"]
           {| info_name := "b.txt"; info_path := "sub/b.txt"; size_bytes := 14;
              modified := "7"; is_dir := false |}).
  - repeat constructor; discriminate.
  - repeat constructor; discriminate.
  - reflexivity.
Defined.

Lemma list_directory_hidden_witness :
  exists r1 r2,
    fs_list_directory (P := Sample.platform) Sample.work Sample.work_fs
                      {| list_path := "."; show_hidden := true |} = Json r1 /\
    fs_list_directory (P := Sample.platform) Sample.work Sample.work_fs
                      {| list_path := "."; show_hidden := false |} = Json r2 /\
    map info_name (entries r1) = ["Docs"; "sub"; ".env"; "A.md"; "a.txt"; "b.txt"] /\
    entries r2 = filter (fun e => negb (is_hidden (info_name e))) (entries r1).
Proof.
  eexists.
  destruct (list_directory_hidden (P := Sample.platform) Sample.work Sample.work_fs
              "." _ eq_refl) as (r2 & E & Hent & _).
  exists r2. split; [reflexivity|]. split; [exact E|]. split; [reflexivity|exact Hent].
Defined.

Lemma search_files_ascending_witness :
  exists r paths,
    fs_search_files (P := Sample.platform) Sample.work Sample.work_fs
                    {| pattern := "*.txt"; search_directory := "."; recursive := true |}
    = Json r /\
    map info_path (matches r) = ["a.txt"; "b.txt"; "sub/b.txt"] /\
    Forall2 (fun p m => _file_info (P := Sample.platform) Sample.work Sample.work_fs p
                        = Ok m) paths (matches r) /\
    StronglySorted (fun p q => PyPath.leb p q = true) paths.
Proof.
  eexists.
  destruct (search_files_ascending (P := Sample.platform) Sample.work Sample.work_fs
              {| pattern := "*.txt"; search_directory := "."; recursive := true |}
              _ eq_refl) as (_ & paths & A & B).
  exists paths. split; [reflexivity|]. split; [reflexivity|]. split; [exact A|exact B].
Defined.

Lemma search_recursive_is_star_star_witness :
  match fs_search_files (P := Sample.platform) Sample.work Sample.work_fs
                        {| pattern := "*.txt"; search_directory := ".";
                           recursive := true |},
        fs_search_files (P := Sample.platform) Sample.work Sample.work_fs
                        {| pattern := "**/*.txt"; search_directory := ".";
                           recursive := false |}
  with
  | Json r1, Json r2 => matches r1 = matches r2 /\ search_count r1 = search_count r2
  | Text s1, Text s2 => s1 = s2
  | _, _ => False
  end.
Proof.
  apply (search_recursive_is_star_star (P := Sample.platform) Sample.work Sample.work_fs
           "." "*.txt"); [discriminate|reflexivity].
Defined.

Lemma grep_exhaustive_witness :
  let params := {| text := "TODO"; grep_directory := "."; file_pattern := "*.*";
                   case_sensitive := false; max_results := 50 |} in
  exists r root found,
    fs_grep (P := Sample.platform) Sample.work Sample.work_fs params = Json r /\
    _safe_path Sample.work "." = Ok root /\
    Glob.rglob (P := Sample.platform) Sample.work_fs root "*.*" = Ok found /\
    files_searched r = 5 /\
    files_searched r
    = List.length (filter (readable_file Sample.work_fs) (sorted PyPath.leb found)) /\
    Forall2 (reports (P := Sample.platform) Sample.work)
            (all_hits (P := Sample.platform) Sample.work_fs params
                      (sorted PyPath.leb found))
            (results r).
Proof.
  intros params. eexists.
  destruct (grep_exhaustive (P := Sample.platform) Sample.work Sample.work_fs params _
              ltac:(split; cbn; lia) eq_refl) as (root & found & A & B & _ & D).
  exists root, found. split; [reflexivity|]. split; [exact A|]. split; [exact B|].
  split; [reflexivity|]. apply D. reflexivity.
Defined.

Lemma grep_case_insensitive_witness :
  match fs_grep (P := Sample.platform) Sample.work Sample.work_fs
                {| text := "TODO"; grep_directory := "."; file_pattern := "*.*";
                   case_sensitive := false; max_results := 50 |},
        fs_grep (P := Sample.platform) Sample.work Sample.work_fs
                {| text := "todo"; grep_directory := "."; file_pattern := "*.*";
                   case_sensitive := false; max_results := 50 |}
  with
  | Json r1, Json r2 =>
    results r1 = results r2 /\ files_searched r1 = files_searched r2 /\
    matches_found r1 = matches_found r2 /\ truncated r1 = truncated r2
  | Text s1, Text s2 => s1 = s2
  | _, _ => False
  end.
Proof.
  apply (grep_case_insensitive (P := Sample.platform) Sample.work Sample.work_fs
           "TODO" "todo" "." "*.*" 50).
  reflexivity.
Defined.

Lemma file_info_inside_root_witness :
  exists r rel,
    fs_file_info (P := Sample.platform) Sample.work Sample.work_fs "A.md" = Json r /\
    _safe_path Sample.work "A.md" = Ok (Sample.work ++ rel)%list /\
    info_path (info r) = PyPath.str_relative rel /\
    line_count r = Some (Some 3).
Proof.
  eexists.
  destruct (file_info_inside_root (P := Sample.platform) Sample.work Sample.work_fs
              "A.md" _ eq_refl) as (rel & _ & A & B & _).
  exists rel. split; [reflexivity|]. split; [exact A|]. split; [exact B|reflexivity].
Defined.

Lemma search_pattern_dotdot_witness :
  fs_search_files (P := Sample.platform) Sample.work Sample.work_fs
                  {| pattern := "../a.txt"; search_directory := "sub";
                     recursive := false |}
  = Json {| res_pattern := "../a.txt"; res_directory := "sub"; res_recursive := false;
            search_count := 1;
            matches := [{| info_name := "a.txt"; info_path := "sub/../a.txt";
                           size_bytes := 11; modified := "3"; is_dir := false |}] |}.
Proof.
  apply (search_pattern_dotdot (P := Sample.platform) Sample.work Sample.work_fs
           "sub" "a.txt" ["work"] "sub" ["sub"]
           (mk_file ("hello" ++ Sample.LFs ++ "world") (mk_stat 11 3) true));
    try reflexivity.
  repeat split; discriminate.
Defined.

Lemma grep_not_a_directory_witness :
  fs_grep (P := Sample.platform) Sample.work Sample.work_fs
          {| text := "hello"; grep_directory := "a.txt"; file_pattern := "*.*";
             case_sensitive := false; max_results := 50 |}
  = Json {| search_text := "hello"; files_searched := 0; matches_found := 0;
            truncated := false; results := [] |}.
Proof.
  apply (grep_not_a_directory (P := Sample.platform) Sample.work Sample.work_fs
           {| text := "hello"; grep_directory := "a.txt"; file_pattern := "*.*";
              case_sensitive := false; max_results := 50 |}
           ["work"; "a.txt"] []); try reflexivity.
  split; cbn; lia.
Defined.
